(** * pdf-xtractor: the upload / processing / result lifecycle

    A shallow embedding of the two page scripts of the repository,

    - [src/docs/script.js]: the class [BlockCellPDFExtractor]
      (module [Extractor] below), and
    - the closure-based uploader of [src/unnamed/part_000]
      (module [Upload] below),

    and the properties of the lifecycle they implement.

    Conventions.  A JavaScript string is the list of its code points
    ([jsstring]); an object with mutable fields is a record that every
    method takes and returns; an element looked up with
    [document.getElementById] is an [option] ([None] when the page has no
    such element, which the scripts test with [if (this.elements.x)]);
    an [async] method suspended at an [await] is an entry of the list of
    pending tasks, resumed by a timer event. *)

From Stdlib Require Import ZArith List Bool Lia String Ascii.
From Stdlib Require Import DecimalString.
Import ListNotations.
Open Scope Z_scope.

(** ** JavaScript strings and the platform functions the scripts call *)

Module JS.

Definition jsstring := list Z.

(** A string literal of the source (ASCII only in both scripts). *)
Definition lit (s : string) : jsstring :=
  map (fun c => Z.of_N (N_of_ascii c)) (list_ascii_of_string s).

(** [a === b] on strings. *)
Fixpoint streq (a b : jsstring) : bool :=
  match a, b with
  | [], [] => true
  | x :: a', y :: b' => (x =? y) && streq a' b'
  | _, _ => false
  end.

(** [!s]: the empty string is the only falsy string. *)
Definition falsy (s : jsstring) : bool :=
  match s with [] => true | _ :: _ => false end.

(** [arr.includes(x)] on an array of strings. *)
Definition includes (arr : list jsstring) (x : jsstring) : bool :=
  existsb (streq x) arr.

(** [stripPrefix p s] is what follows [p] when [s] starts with [p]. *)
Fixpoint stripPrefix (p s : jsstring) : option jsstring :=
  match p, s with
  | [], _ => Some s
  | _ :: _, [] => None
  | x :: p', y :: s' => if x =? y then stripPrefix p' s' else None
  end.

(** [s.replace(pat, rep)] with a string pattern: the first occurrence
    only.  Neither script passes a replacement that contains [$]. *)
Fixpoint replace (pat rep s : jsstring) : jsstring :=
  match stripPrefix pat s with
  | Some rest => rep ++ rest
  | None =>
      match s with
      | [] => []
      | c :: s' => c :: replace pat rep s'
      end
  end.

(** [pat] occurs in [s]; and its first occurrence is the one after
    [pre], with [post] behind it. *)
Definition occurs (pat s : jsstring) : Prop :=
  exists pre post, s = pre ++ pat ++ post.

Definition first_occurrence (pat pre post s : jsstring) : Prop :=
  s = pre ++ pat ++ post /\
  forall pre' post', s = pre' ++ pat ++ post' ->
    (List.length pre <= List.length pre')%nat.

(** Decimal digits of a non-negative integer. *)
Definition digits (n : Z) : jsstring :=
  lit (NilZero.string_of_uint (N.to_uint (Z.to_N n))).

(** [parseFloat(x.toFixed(2)) + ''] where [h] is [x] in hundredths,
    already rounded: the two decimals, trailing zeros dropped. *)
Definition hundredths (h : Z) : jsstring :=
  let ip := h / 100 in
  let fp := h mod 100 in
  if fp =? 0 then digits ip
  else if fp mod 10 =? 0 then digits ip ++ lit "." ++ digits (fp / 10)
  else digits ip ++ lit "." ++ digits (fp / 10) ++ digits (fp mod 10).

(** [formatFileSize(bytes)], the same function in both scripts.

    [Math.floor(Math.log(bytes) / Math.log(k))] is taken as the exact
    integer logarithm ([Z.log2 bytes / 10]); the division by a power of
    two is exact on doubles below 2^53, and [toFixed(2)] rounds the exact
    value to the nearest hundredth, the larger one on a tie.  [sizes[i]]
    past the end of the array is [undefined]; a negative argument makes
    every intermediate value [NaN]. *)
Definition sizes : list jsstring :=
  [lit "Bytes"; lit "KB"; lit "MB"; lit "GB"].

Definition formatFileSize (bytes : Z) : jsstring :=
  if bytes =? 0 then lit "0 Bytes"
  else if bytes <? 0 then lit "NaN undefined"
  else
    let k := 1024 in
    let i := Z.log2 bytes / 10 in
    let h := (200 * bytes + k ^ i) / (2 * k ^ i) in
    hundredths h ++ lit " " ++ nth (Z.to_nat i) sizes (lit "undefined").

(** *** UTF-8, as [new Blob([text])] encodes a string part *)

Definition surrogate (c : Z) : bool := (0xD800 <=? c) && (c <=? 0xDFFF).

(** A code point that is a Unicode scalar value. *)
Definition scalar (c : Z) : Prop :=
  (0 <= c < 0xD800) \/ (0xE000 <= c <= 0x10FFFF).

(** One code point; an unpaired surrogate becomes U+FFFD. *)
Definition utf8_encode_cp (c : Z) : list Z :=
  if c <? 0x80 then [c]
  else if c <? 0x800 then [0xC0 + c / 64; 0x80 + c mod 64]
  else if c <? 0x10000 then
    if surrogate c then [0xEF; 0xBF; 0xBD]
    else [0xE0 + c / 4096; 0x80 + (c / 64) mod 64; 0x80 + c mod 64]
  else [0xF0 + c / 262144; 0x80 + (c / 4096) mod 64;
        0x80 + (c / 64) mod 64; 0x80 + c mod 64].

Definition utf8_encode (s : jsstring) : list Z :=
  flat_map utf8_encode_cp s.

Definition continuation (b : Z) : bool := (0x80 <=? b) && (b <? 0xC0).

Definition prepend (c : Z) (r : option jsstring) : option jsstring :=
  match r with Some s => Some (c :: s) | None => None end.

(** The strict UTF-8 decoder the round trip is measured with: it refuses
    truncated, overlong, surrogate and out-of-range sequences. *)
Fixpoint utf8_decode (bs : list Z) : option jsstring :=
  match bs with
  | [] => Some []
  | b0 :: r0 =>
      if (0 <=? b0) && (b0 <? 0x80) then prepend b0 (utf8_decode r0)
      else if (0xC2 <=? b0) && (b0 <? 0xE0) then
        match r0 with
        | b1 :: r1 =>
            if continuation b1
            then prepend ((b0 - 0xC0) * 64 + (b1 - 0x80)) (utf8_decode r1)
            else None
        | _ => None
        end
      else if (0xE0 <=? b0) && (b0 <? 0xF0) then
        match r0 with
        | b1 :: b2 :: r2 =>
            let c := (b0 - 0xE0) * 4096 + (b1 - 0x80) * 64 + (b2 - 0x80) in
            if continuation b1 && continuation b2
               && (0x800 <=? c) && negb (surrogate c)
            then prepend c (utf8_decode r2)
            else None
        | _ => None
        end
      else if (0xF0 <=? b0) && (b0 <? 0xF5) then
        match r0 with
        | b1 :: b2 :: b3 :: r3 =>
            let c := (b0 - 0xF0) * 262144 + (b1 - 0x80) * 4096
                     + (b2 - 0x80) * 64 + (b3 - 0x80) in
            if continuation b1 && continuation b2 && continuation b3
               && (0x10000 <=? c) && (c <=? 0x10FFFF)
            then prepend c (utf8_decode r3)
            else None
        | _ => None
        end
      else None
  end.

(** *** Files in, downloads out *)

(** The fields of a browser [File] that the scripts read. *)
Record File := mkFile {
  name : jsstring;
  size : Z;
  type : jsstring;
  lastModified : Z
}.

(** What a click on a link with a [download] attribute hands to the
    browser: the suggested file name and the blob behind the link. *)
Record Download := mkDownload {
  download : jsstring;
  blob : list Z;
  blobType : jsstring
}.

End JS.

Import JS.

(** ** [src/docs/script.js]: class [BlockCellPDFExtractor] *)

Module Extractor.

(** [this.config] *)
Record Config := mkConfig {
  maxFileSize : Z;
  allowedTypes : list jsstring;
  animationDuration : Z;
  processingTime : Z
}.

(** [this.state] *)
Record State := mkState {
  isProcessing : bool;
  currentFile : option File;
  extractedText : jsstring;
  dragCounter : Z
}.

(** [this.elements], each with the one property the script writes: for a
    container whether it is displayed ([style.display], ['block'] or
    ['none']), for the progress bar its width in percent, for a text
    node its [textContent], for the file input its [value].  Class-list
    animations and scrolling change nothing else and are left out. *)
Record Elements := mkElements {
  fileInput : option jsstring;
  progressContainer : option bool;
  progressBar : option Z;
  progressText : option jsstring;
  resultsContainer : option bool;
  extractedContent : option jsstring;
  errorContainer : option bool;
  errorMessage : option jsstring;
  filePreview : option bool;
  fileName : option jsstring;
  fileSize : option jsstring
}.

(** One step of [simulateProcessing]. *)
Record Step := mkStep { progress : Z; message : jsstring }.

(** An activation of [processFile] suspended inside
    [simulateProcessing]: the [file] it was called with and the steps
    its loop has still to show. *)
Record Task := mkTask { file : File; remaining : list Step }.

(** The instance, the timers it has pending, and what it has shown or
    handed to the page outside [this.elements]. *)
Record App := mkApp {
  config : Config;
  state : State;
  elements : Elements;
  pending : list Task;
  notification : option (jsstring * jsstring);
  downloads : list Download
}.

Inductive Validation :=
| Valid
| Invalid (message : jsstring).

Definition valid (v : Validation) : bool :=
  match v with Valid => true | Invalid _ => false end.

(** *** Field updates *)

Definition withState (f : State -> State) (a : App) : App :=
  mkApp (config a) (f (state a)) (elements a) (pending a)
        (notification a) (downloads a).

Definition withElements (f : Elements -> Elements) (a : App) : App :=
  mkApp (config a) (state a) (f (elements a)) (pending a)
        (notification a) (downloads a).

Definition withPending (f : list Task -> list Task) (a : App) : App :=
  mkApp (config a) (state a) (elements a) (f (pending a))
        (notification a) (downloads a).

Definition setIsProcessing (b : bool) (s : State) : State :=
  mkState b (currentFile s) (extractedText s) (dragCounter s).

Definition setCurrentFile (f : option File) (s : State) : State :=
  mkState (isProcessing s) f (extractedText s) (dragCounter s).

Definition setExtractedText (t : jsstring) (s : State) : State :=
  mkState (isProcessing s) (currentFile s) t (dragCounter s).

Definition setDragCounter (n : Z) (s : State) : State :=
  mkState (isProcessing s) (currentFile s) (extractedText s) n.

(** [if (el) el.prop = v]: nothing happens on a missing element. *)
Definition assign {A : Type} (el : option A) (v : A) : option A :=
  match el with Some _ => Some v | None => None end.

Definition present {A : Type} (el : option A) : bool :=
  match el with Some _ => true | None => false end.

(** *** [init] and [setupInitialState] *)

Definition defaultConfig : Config :=
  mkConfig (10 * 1024 * 1024) [lit "application/pdf"] 300 3000.

Definition initialState : State := mkState false None [] 0.

Definition setupInitialState (e : Elements) : Elements :=
  mkElements (fileInput e)
    (assign (progressContainer e) false) (progressBar e) (progressText e)
    (assign (resultsContainer e) false) (extractedContent e)
    (assign (errorContainer e) false) (errorMessage e)
    (assign (filePreview e) false) (fileName e) (fileSize e).

(** The instance the constructor builds on a [page]. *)
Definition init (page : Elements) : App :=
  mkApp defaultConfig initialState (setupInitialState page) [] None [].

(** *** Showing and hiding *)

Definition showError (msg : jsstring) (a : App) : App :=
  match errorContainer (elements a) with
  | None => a
  | Some _ =>
      withElements (fun e =>
        mkElements (fileInput e)
          (progressContainer e) (progressBar e) (progressText e)
          (resultsContainer e) (extractedContent e)
          (Some true) (assign (errorMessage e) msg)
          (filePreview e) (fileName e) (fileSize e)) a
  end.

Definition hideError (a : App) : App :=
  withElements (fun e =>
    mkElements (fileInput e)
      (progressContainer e) (progressBar e) (progressText e)
      (resultsContainer e) (extractedContent e)
      (assign (errorContainer e) false) (errorMessage e)
      (filePreview e) (fileName e) (fileSize e)) a.

Definition showFilePreview (f : File) (a : App) : App :=
  match filePreview (elements a) with
  | None => a
  | Some _ =>
      withElements (fun e =>
        mkElements (fileInput e)
          (progressContainer e) (progressBar e) (progressText e)
          (resultsContainer e) (extractedContent e)
          (errorContainer e) (errorMessage e)
          (Some true) (assign (fileName e) (name f))
          (assign (fileSize e) (formatFileSize (size f)))) a
  end.

Definition hideFilePreview (a : App) : App :=
  withElements (fun e =>
    mkElements (fileInput e)
      (progressContainer e) (progressBar e) (progressText e)
      (resultsContainer e) (extractedContent e)
      (errorContainer e) (errorMessage e)
      (assign (filePreview e) false) (fileName e) (fileSize e)) a.

Definition showProgress (a : App) : App :=
  match progressContainer (elements a) with
  | None => a
  | Some _ =>
      withElements (fun e =>
        mkElements (fileInput e)
          (Some true) (assign (progressBar e) 0) (progressText e)
          (resultsContainer e) (extractedContent e)
          (errorContainer e) (errorMessage e)
          (filePreview e) (fileName e) (fileSize e)) a
  end.

Definition hideProgress (a : App) : App :=
  withElements (fun e =>
    mkElements (fileInput e)
      (assign (progressContainer e) false) (progressBar e) (progressText e)
      (resultsContainer e) (extractedContent e)
      (errorContainer e) (errorMessage e)
      (filePreview e) (fileName e) (fileSize e)) a.

Definition updateProgress (s : Step) (a : App) : App :=
  withElements (fun e =>
    mkElements (fileInput e)
      (progressContainer e) (assign (progressBar e) (progress s))
      (assign (progressText e) (message s))
      (resultsContainer e) (extractedContent e)
      (errorContainer e) (errorMessage e)
      (filePreview e) (fileName e) (fileSize e)) a.

Definition showResults (text : jsstring) (a : App) : App :=
  match resultsContainer (elements a) with
  | None => a
  | Some _ =>
      withElements (fun e =>
        mkElements (fileInput e)
          (progressContainer e) (progressBar e) (progressText e)
          (Some true) (assign (extractedContent e) text)
          (errorContainer e) (errorMessage e)
          (filePreview e) (fileName e) (fileSize e)) a
  end.

Definition hideResults (a : App) : App :=
  withElements (fun e =>
    mkElements (fileInput e)
      (progressContainer e) (progressBar e) (progressText e)
      (assign (resultsContainer e) false) (extractedContent e)
      (errorContainer e) (errorMessage e)
      (filePreview e) (fileName e) (fileSize e)) a.

Definition showNotification (msg kind : jsstring) (a : App) : App :=
  mkApp (config a) (state a) (elements a) (pending a)
        (Some (msg, kind)) (downloads a).

(** *** Validation and selection *)

Definition validateFile (c : Config) (f : File) : Validation :=
  if negb (includes (allowedTypes c) (type f)) then
    Invalid (lit "Please select a PDF file only.")
  else if size f >? maxFileSize c then
    Invalid (lit "File size must be less than "
             ++ formatFileSize (maxFileSize c) ++ lit ".")
  else Valid.

Definition steps : list Step :=
  [ mkStep 20 (lit "Reading PDF file...");
    mkStep 40 (lit "Analyzing document structure...");
    mkStep 60 (lit "Extracting text content...");
    mkStep 80 (lit "Processing formatting...");
    mkStep 100 (lit "Complete!") ].

(** [simulateProcessing] up to its first timer: the first step is shown
    during the call, the loop then waits in [delay]; what it still has to
    show travels with the task. *)
Definition simulateProcessing (f : File) (a : App) : App :=
  match steps with
  | [] => withPending (fun q => q ++ [mkTask f []]) a
  | s :: rest =>
      withPending (fun q => q ++ [mkTask f rest]) (updateProgress s a)
  end.

(** [processFile] up to its [await]: the re-entrancy guard, the flag, the
    progress panel, and the suspension. *)
Definition processFile (f : File) (a : App) : App :=
  if isProcessing (state a) then a
  else
    let a := withState (setIsProcessing true) a in
    let a := showProgress a in
    simulateProcessing f a.

Definition handleFileSelection (f : File) (a : App) : App :=
  match validateFile (config a) f with
  | Invalid msg => showError msg a
  | Valid =>
      let a := hideError a in
      let a := withState (setCurrentFile (Some f)) a in
      let a := showFilePreview f a in
      processFile f a
  end.

Definition clearFile (a : App) : App :=
  let a := withState (setCurrentFile None) a in
  let a := withState (setExtractedText []) a in
  let a := withElements (fun e =>
             mkElements (assign (fileInput e) [])
               (progressContainer e) (progressBar e) (progressText e)
               (resultsContainer e) (extractedContent e)
               (errorContainer e) (errorMessage e)
               (filePreview e) (fileName e) (fileSize e)) a in
  let a := hideFilePreview a in
  let a := hideResults a in
  let a := hideProgress a in
  hideError a.

(** [generateMockExtractedText(fileName)]; [now] is what
    [new Date().toLocaleString()] returns at the call. *)
Definition generateMockExtractedText (fileName now : jsstring) : jsstring :=
  lit "# Extracted Text from " ++ fileName ++ lit "

This is a sample of extracted text content from your PDF file. In a real implementation, this would contain the actual text extracted from the PDF document.

## Document Summary
- File processed successfully
- Text extraction completed
- Ready for download or copying

## Sample Content
Lorem ipsum dolor sit amet, consectetur adipiscing elit. Sed do eiusmod tempor incididunt ut labore et dolore magna aliqua. Ut enim ad minim veniam, quis nostrud exercitation ullamco laboris.

### Key Features Extracted:
1. Headers and subheaders
2. Paragraph text
3. Lists and bullet points
4. Special formatting

This extracted content maintains the structure and formatting of the original document while providing clean, searchable text output.

---
*Extraction completed at " ++ now ++ lit "*".

(** The rest of [processFile], run when [simulateProcessing] has
    returned: the [try] body and the [finally].  Nothing in the [try]
    body throws, so the [catch] branch has no run. *)
Definition processFile_resume (f : File) (now : jsstring) (a : App) : App :=
  let text := generateMockExtractedText (name f) now in
  let a := withState (setExtractedText text) a in
  let a := hideProgress a in
  let a := showResults text a in
  withState (setIsProcessing false) a.

(** A [delay] timer fires: the oldest suspended task goes on, either
    with the next step of its loop and a new timer, or, the loop over,
    with the rest of [processFile]. *)
Definition timer (now : jsstring) (a : App) : App :=
  match pending a with
  | [] => a
  | t :: q =>
      match remaining t with
      | s :: rest =>
          withPending (fun _ => q ++ [mkTask (file t) rest])
                      (updateProgress s a)
      | [] =>
          processFile_resume (file t) now (withPending (fun _ => q) a)
      end
  end.

(** *** Download, escape key, public API *)

Definition downloadText (a : App) : App :=
  match currentFile (state a) with
  | None => a
  | Some f =>
      if falsy (extractedText (state a)) then a
      else
        let d := mkDownload
                   (replace (lit ".pdf") [] (name f) ++ lit "_extracted.txt")
                   (utf8_encode (extractedText (state a)))
                   (lit "text/plain") in
        showNotification (lit "Download started!") (lit "success")
          (mkApp (config a) (state a) (elements a) (pending a)
                 (notification a) (downloads a ++ [d]))
  end.

Definition handleEscapeKey (a : App) : App :=
  let a := hideError a in
  if negb (isProcessing (state a)) && present (currentFile (state a))
  then clearFile a
  else a.

Definition reset (a : App) : App := hideError (clearFile a).

Definition getExtractedText (a : App) : jsstring := extractedText (state a).

(** *** Events

    What can happen to an instance: a listener of [bindEvents] runs (the
    drag counters and [drop] of the drop zone, [change] of the file input,
    the clear and download buttons, the escape key), [reset] of the public
    API is called, or a [setTimeout] callback of [delay] is due. *)

Inductive Event :=
| DragEnter
| DragLeave
| Drop (f : File)
| Change (f : File)
| ClickClear
| ClickDownload
| KeyEscape
| Reset
| Timer (now : jsstring).

Definition handle (ev : Event) (a : App) : App :=
  match ev with
  | DragEnter =>
      withState (fun s => setDragCounter (dragCounter s + 1) s) a
  | DragLeave =>
      withState (fun s => setDragCounter (dragCounter s - 1) s) a
  | Drop f => handleFileSelection f (withState (setDragCounter 0) a)
  | Change f => handleFileSelection f a
  | ClickClear => clearFile a
  | ClickDownload => downloadText a
  | KeyEscape => handleEscapeKey a
  | Reset => reset a
  | Timer now => timer now a
  end.

(** Events in the order they happen. *)
Fixpoint run (evs : list Event) (a : App) : App :=
  match evs with
  | [] => a
  | ev :: evs' => run evs' (handle ev a)
  end.

(** The states of an instance: those an event sequence leads to from the
    constructor's. *)
Inductive reachable (page : Elements) : App -> Prop :=
| reach_init : reachable page (init page)
| reach_step : forall a ev,
    reachable page a -> reachable page (handle ev a).

(** *** The session states of the specification

    The script keeps no state name.  The names of the specification are
    read off the instance: [Processing] is the flag [isProcessing];
    otherwise [Error] is the error banner on display, [Result] the results
    panel on display, [FileSelected] a stored file, and [Idle] none of
    these. *)
Inductive Session := Idle | FileSelected | Processing | Result | Error.

Definition shown (el : option bool) : bool :=
  match el with Some true => true | _ => false end.

Definition session (a : App) : Session :=
  if isProcessing (state a) then Processing
  else if shown (errorContainer (elements a)) then Error
  else if shown (resultsContainer (elements a)) then Result
  else if present (currentFile (state a)) then FileSelected
  else Idle.

(** *** Invariants of the reachable states *)

(** At most one [processFile] is suspended, and [isProcessing] says
    whether one is. *)
Definition one_flight (a : App) : Prop :=
  match pending a with
  | [] => isProcessing (state a) = false
  | [_] => isProcessing (state a) = true
  | _ :: _ :: _ => False
  end.

(** The results panel of a [page] that has one is on display exactly
    when [extractedText] is not empty. *)
Definition results_sync (page : Elements) (a : App) : Prop :=
  resultsContainer (elements a)
  = assign (resultsContainer page) (negb (falsy (extractedText (state a)))).

End Extractor.

(** ** [src/unnamed/part_000]: the closure-based uploader *)

Module Upload.

(** [style.display] of a card: what the stylesheet gives until the
    script writes it. *)
Inductive Display := FromStylesheet | DisplayNone | DisplayBlock | DisplayFlex.

(** The elements the script looks up, each with the property it writes.
    The statistics line (random numbers) and the file date (a locale
    rendering) are left out. *)
Record Page := mkPage {
  fileInput : option jsstring;
  filePreview : option Display;
  uploadCard : option Display;
  optionsCard : option Display;
  resultsCard : option Display;
  loadingOverlay : option Display;
  fileName : option jsstring;
  fileSize : option jsstring;
  extractedText : option jsstring
}.

(** The closure variable [currentFile], the page, the [setTimeout]
    callbacks of [extractPDF] not yet run, the [alert]s shown and the
    downloads started. *)
Record App := mkApp {
  currentFile : option File;
  page : Page;
  timers : nat;
  alerts : list jsstring;
  downloads : list Download
}.

Definition assign {A : Type} (el : option A) (v : A) : option A :=
  match el with Some _ => Some v | None => None end.

Definition withPage (f : Page -> Page) (a : App) : App :=
  mkApp (currentFile a) (f (page a)) (timers a) (alerts a) (downloads a).

Definition setCurrentFile (f : option File) (a : App) : App :=
  mkApp f (page a) (timers a) (alerts a) (downloads a).

Definition alert (msg : jsstring) (a : App) : App :=
  mkApp (currentFile a) (page a) (timers a) (alerts a ++ [msg])
        (downloads a).

Definition init (p : Page) : App := mkApp None p 0%nat [] [].

Definition showFilePreview (f : File) (a : App) : App :=
  withPage (fun p =>
    mkPage (fileInput p) (assign (filePreview p) DisplayBlock)
      (uploadCard p) (optionsCard p) (resultsCard p) (loadingOverlay p)
      (assign (fileName p) (name f))
      (assign (fileSize p) (formatFileSize (size f)))
      (extractedText p)) a.

Definition showOptionsCard (a : App) : App :=
  withPage (fun p =>
    mkPage (fileInput p) (filePreview p)
      (uploadCard p) (assign (optionsCard p) DisplayBlock)
      (resultsCard p) (loadingOverlay p)
      (fileName p) (fileSize p) (extractedText p)) a.

Definition handleFileSelect (f : File) (a : App) : App :=
  if negb (streq (type f) (lit "application/pdf")) then
    alert (lit "Please select a PDF file") a
  else if size f >? 50 * 1024 * 1024 then
    alert (lit "File size must be less than 50MB") a
  else
    let a := setCurrentFile (Some f) a in
    let a := showFilePreview f a in
    showOptionsCard a.

(** The [drop] listener, on the first dropped file if there is one. *)
Definition drop (files : list File) (a : App) : App :=
  match files with
  | f :: _ =>
      if streq (type f) (lit "application/pdf") then handleFileSelect f a
      else alert (lit "Please select a PDF file") a
  | [] => alert (lit "Please select a PDF file") a
  end.

Definition setOverlay (d : Display) (a : App) : App :=
  withPage (fun p =>
    mkPage (fileInput p) (filePreview p)
      (uploadCard p) (optionsCard p) (resultsCard p)
      (assign (loadingOverlay p) d)
      (fileName p) (fileSize p) (extractedText p)) a.

(** [extractPDF]: the overlay, and one more timer. *)
Definition extractPDF (a : App) : App :=
  let a := setOverlay DisplayFlex a in
  mkApp (currentFile a) (page a) (S (timers a)) (alerts a) (downloads a).

(** The click listener of the extract button. *)
Definition clickExtract (a : App) : App :=
  match currentFile a with
  | None => alert (lit "Please select a PDF file first") a
  | Some _ => extractPDF a
  end.

Definition sampleText (f : File) (now : jsstring) : jsstring :=
  lit "Sample extracted text from " ++ name f ++ lit ":

This is a demonstration of the PDF extraction functionality.

The actual extraction would process the PDF content and display it here.

File: " ++ name f ++ lit "
Size: " ++ formatFileSize (size f) ++ lit "
Processed: " ++ now.

(** What a text area gives back for the [value] it was assigned: every
    CR LF pair and every other CR has become LF. *)
Fixpoint normalizeNewlines (s : jsstring) : jsstring :=
  match s with
  | [] => []
  | c :: s' =>
      if c =? 0xD then
        0xA :: match s' with
               | d :: s'' =>
                   if d =? 0xA then normalizeNewlines s''
                   else normalizeNewlines s'
               | [] => []
               end
      else c :: normalizeNewlines s'
  end.

(** [showResults]; with the text area on the page and no current file,
    [currentFile.name] throws after the cards have been switched.  The
    text area is kept as the [value] it reads back with. *)
Definition showResults (now : jsstring) (a : App) : App :=
  let a := withPage (fun p =>
             mkPage (fileInput p) (filePreview p)
               (assign (uploadCard p) DisplayNone)
               (assign (optionsCard p) DisplayNone)
               (assign (resultsCard p) DisplayBlock)
               (loadingOverlay p)
               (fileName p) (fileSize p) (extractedText p)) a in
  match extractedText (page a), currentFile a with
  | Some _, Some f =>
      withPage (fun p =>
        mkPage (fileInput p) (filePreview p)
          (uploadCard p) (optionsCard p) (resultsCard p) (loadingOverlay p)
          (fileName p) (fileSize p)
          (Some (normalizeNewlines (sampleText f now)))) a
  | _, _ => a
  end.

(** A timer of [extractPDF] fires. *)
Definition timer (now : jsstring) (a : App) : App :=
  match timers a with
  | O => a
  | S n =>
      let a := mkApp (currentFile a) (page a) n (alerts a) (downloads a) in
      showResults now (setOverlay DisplayNone a)
  end.

Definition removeFile (a : App) : App :=
  withPage (fun p =>
    mkPage (assign (fileInput p) []) (assign (filePreview p) DisplayNone)
      (uploadCard p) (assign (optionsCard p) DisplayNone)
      (resultsCard p) (loadingOverlay p)
      (fileName p) (fileSize p) (extractedText p))
    (setCurrentFile None a).

Definition reset (a : App) : App :=
  withPage (fun p =>
    mkPage (assign (fileInput p) []) (assign (filePreview p) DisplayNone)
      (assign (uploadCard p) DisplayBlock)
      (assign (optionsCard p) DisplayNone)
      (assign (resultsCard p) DisplayNone) (loadingOverlay p)
      (fileName p) (fileSize p) (extractedText p))
    (setCurrentFile None a).

(** [window.downloadText] and [window.downloadExcel] have the same body;
    reading [.value] of a missing text area throws before any download. *)
Definition downloadText (a : App) : App :=
  match currentFile a, extractedText (page a) with
  | Some f, Some content =>
      let d := mkDownload
                 (replace (lit ".pdf") (lit "_extracted.txt") (name f))
                 (utf8_encode content)
                 (lit "text/plain") in
      mkApp (currentFile a) (page a) (timers a) (alerts a)
            (downloads a ++ [d])
  | _, _ => a
  end.

Definition downloadExcel (a : App) : App := downloadText a.

End Upload.

(** ** Concrete runs *)

Module Scenario.

Import Extractor.

(** A page with every element the script looks up. *)
Definition page : Elements :=
  mkElements (Some []) (Some true) (Some 0) (Some [])
    (Some true) (Some []) (Some true) (Some [])
    (Some true) (Some []) (Some []).

Definition a_pdf : File :=
  mkFile (lit "a.pdf") (2 * 1024 * 1024) (lit "application/pdf") 0.

Definition b_pdf : File :=
  mkFile (lit "b.pdf") 4096 (lit "application/pdf") 0.

Definition report_pdf : File :=
  mkFile (lit "report.pdf") 4096 (lit "application/pdf") 0.

Definition twice_pdf : File :=
  mkFile (lit "a.pdfb.pdf") 4096 (lit "application/pdf") 0.

Definition big_png : File :=
  mkFile (lit "scan.png") (20 * 1024 * 1024) (lit "image/png") 0.


Definition now : jsstring := lit "11/2/2026, 10:00:00 AM".

(** The five timers one extraction takes. *)
Definition settle : list Event :=
  [Timer now; Timer now; Timer now; Timer now; Timer now].

(** A file has been chosen and its extraction is under way. *)
Definition processing : App := run [Change a_pdf] (init page).

(** The extraction has completed. *)
Definition result : App := run settle processing.

(** The clear button is hit during the extraction, which then completes. *)
Definition cleared_then_settled : App :=
  run (ClickClear :: settle) processing.

(** After a result, another file is chosen. *)
Definition second_processing : App := handle (Change b_pdf) result.

(** After a result, a file that is no PDF is chosen. *)
Definition error_after_result : App := handle (Change big_png) result.

(** Sessions with the text [T] for a result. *)
Definition report_result : App :=
  mkApp defaultConfig
    (mkState false (Some report_pdf) (lit "T") 0)
    (setupInitialState page) [] None [].

Definition twice_result : App :=
  mkApp defaultConfig
    (mkState false (Some twice_pdf) (lit "T") 0)
    (setupInitialState page) [] None [].

(** The uploader of [part_000] on a page with every element, a file
    selected. *)
Definition upage : Upload.Page :=
  Upload.mkPage (Some []) (Some Upload.DisplayNone)
    (Some Upload.FromStylesheet) (Some Upload.DisplayNone)
    (Some Upload.DisplayNone) (Some Upload.DisplayNone)
    (Some []) (Some []) (Some []).

Definition uselected (f : File) : Upload.App :=
  Upload.handleFileSelect f (Upload.init upage).

End Scenario.

(** ** More of [script.js] *)

(** *** Invariants of the files, the text and the panels *)

Module Kept.

Import Extractor.

(** A file that passes [validateFile] under the configuration of [init]. *)
Definition validated (f : File) : Prop :=
  validateFile defaultConfig f = Valid.

(** The stored file and the file of every suspended [processFile] have
    passed validation. *)
Definition files_validated (a : App) : Prop :=
  (forall f, currentFile (state a) = Some f -> validated f) /\
  Forall (fun t => validated (file t)) (pending a).

(** [extractedText] is empty or the text generated for a validated file. *)
Definition text_generated (a : App) : Prop :=
  extractedText (state a) = [] \/
  exists f now, validated f /\
    extractedText (state a) = generateMockExtractedText (name f) now.

(** The progress panel is on display only while [isProcessing] is set. *)
Definition progress_sync (a : App) : Prop :=
  shown (progressContainer (elements a)) = true ->
  isProcessing (state a) = true.

(** The file preview of a [page] that has one is on display exactly when
    a file is stored, and then shows the name and the size of that file
    in the elements the page has for them. *)
Definition preview_sync (page : Elements) (a : App) : Prop :=
  match filePreview page with
  | None => filePreview (elements a) = None
  | Some _ =>
      filePreview (elements a) = Some (present (currentFile (state a))) /\
      present (fileName (elements a)) = present (fileName page) /\
      present (fileSize (elements a)) = present (fileSize page) /\
      forall f, currentFile (state a) = Some f ->
        fileName (elements a) = assign (fileName page) (name f) /\
        fileSize (elements a)
        = assign (fileSize page) (formatFileSize (size f))
  end.

End Kept.

(** *** The drop zone and its [drag-over] class *)

Module Drag.

Import Extractor.

(** An instance on a page that has the drop zone, with whether the zone
    carries the class [drag-over]. *)
Record Zone := mkZone { inst : App; dragOver : bool }.

Definition dragenter (z : Zone) : Zone :=
  mkZone (handle DragEnter (inst z)) true.

Definition dragleave (z : Zone) : Zone :=
  let a := handle DragLeave (inst z) in
  mkZone a (if dragCounter (state a) =? 0 then false else dragOver z).

Definition drop (f : File) (z : Zone) : Zone :=
  mkZone (handle (Drop f) (inst z)) false.

(** Every event, the three of the drop zone with their effect on the
    class. *)
Definition listen (ev : Event) (z : Zone) : Zone :=
  match ev with
  | DragEnter => dragenter z
  | DragLeave => dragleave z
  | Drop f => drop f z
  | _ => mkZone (handle ev (inst z)) (dragOver z)
  end.

(** The highlight follows the counter: no leave is outstanding, and the
    class is there exactly when an enter is. *)
Definition balanced (z : Zone) : Prop :=
  0 <= dragCounter (state (inst z)) /\
  (dragOver z = true <-> 0 < dragCounter (state (inst z))).

End Drag.

(** *** [copyToClipboard] *)

Module Clipboard.

Import Extractor.

(** The copy button: its [textContent] and whether it has the class
    [success]. *)
Record Button := mkButton { label : jsstring; success : bool }.

(** An instance with the copy button if the page has one, the system
    clipboard as far as the script has written it, the calls of
    [navigator.clipboard.writeText] not yet settled (each with its text)
    and the two-second timers not yet due (each with the [originalText]
    it closed over). *)
Record Desk := mkDesk {
  inst : App;
  copyBtn : option Button;
  clipboard : option jsstring;
  writes : list jsstring;
  restores : list jsstring
}.

(** [copyToClipboard] up to its [await]. *)
Definition copyToClipboard (d : Desk) : Desk :=
  if falsy (extractedText (state (inst d))) then d
  else mkDesk (inst d) (copyBtn d) (clipboard d)
         (writes d ++ [extractedText (state (inst d))]) (restores d).

(** The oldest [writeText] settles: fulfilled ([ok]) or rejected. *)
Definition settled (ok : bool) (d : Desk) : Desk :=
  match writes d with
  | [] => d
  | text :: ws =>
      if ok then
        let a := showNotification (lit "Text copied to clipboard!")
                   (lit "success") (inst d) in
        match copyBtn d with
        | None => mkDesk a None (Some text) ws (restores d)
        | Some b =>
            let originalText := label b in
            mkDesk a (Some (mkButton (lit "Copied!") true)) (Some text) ws
              (restores d ++ [originalText])
        end
      else
        mkDesk (showNotification
                  (lit "Failed to copy text. Please try again.")
                  (lit "error") (inst d))
          (copyBtn d) (clipboard d) ws (restores d)
  end.

(** The oldest two-second timer is due. *)
Definition restore (d : Desk) : Desk :=
  match restores d with
  | [] => d
  | originalText :: rs =>
      mkDesk (inst d)
        (match copyBtn d with
         | Some _ => Some (mkButton originalText false)
         | None => None
         end)
        (clipboard d) (writes d) rs
  end.

End Clipboard.

(** *** [validateForm] *)

Module Forms.

(** [WhiteSpace] and [LineTerminator] of the language, what [trim]
    removes. *)
Definition whitespace (c : Z) : bool :=
  (c =? 0x9) || (c =? 0xA) || (c =? 0xB) || (c =? 0xC) || (c =? 0xD)
  || (c =? 0x20) || (c =? 0xA0) || (c =? 0x1680)
  || ((0x2000 <=? c) && (c <=? 0x200A))
  || (c =? 0x2028) || (c =? 0x2029) || (c =? 0x202F) || (c =? 0x205F)
  || (c =? 0x3000) || (c =? 0xFEFF).

Fixpoint trimStart (s : jsstring) : jsstring :=
  match s with
  | [] => []
  | c :: s' => if whitespace c then trimStart s' else s
  end.

Definition trimEnd (s : jsstring) : jsstring := rev (trimStart (rev s)).

Definition trim (s : jsstring) : jsstring := trimEnd (trimStart s).

(** A required [input] or [textarea]: its [value] and whether it has the
    class [error].  The [field-error] element beside it is left out. *)
Record Input := mkInput { value : jsstring; error : bool }.

Definition showFieldError (i : Input) : Input := mkInput (value i) true.

Definition clearFieldError (i : Input) : Input := mkInput (value i) false.

(** The [forEach] of [validateForm] over the required fields in document
    order, from the value [isValid] has so far: the fields as it leaves
    them, and [isValid] at the end. *)
Fixpoint validateEach (inputs : list Input) (isValid : bool)
  : list Input * bool :=
  match inputs with
  | [] => ([], isValid)
  | input :: rest =>
      if falsy (trim (value input)) then
        let (rest', isValid') := validateEach rest false in
        (showFieldError input :: rest', isValid')
      else
        let (rest', isValid') := validateEach rest isValid in
        (clearFieldError input :: rest', isValid')
  end.

Definition validateForm (inputs : list Input) : list Input * bool :=
  validateEach inputs true.

(** The [submit] listener: whether it calls [preventDefault]. *)
Definition submitPrevented (inputs : list Input) : bool :=
  negb (snd (validateForm inputs)).

End Forms.

(** ** More of [part_000] *)

Module Page.

Import Upload.

(** What can happen to the uploader: the listeners of the file input,
    the drop area and the extract button, the functions it puts on
    [window], and a timer of [extractPDF]. *)
Inductive Event :=
| Change (f : File)
| Drop (files : list File)
| ClickExtract
| RemoveFile
| Reset
| DownloadText
| DownloadExcel
| Timer (now : jsstring).

Definition handle (ev : Event) (u : App) : App :=
  match ev with
  | Change f => handleFileSelect f u
  | Drop files => drop files u
  | ClickExtract => clickExtract u
  | RemoveFile => removeFile u
  | Reset => reset u
  | DownloadText => downloadText u
  | DownloadExcel => downloadExcel u
  | Timer now => timer now u
  end.

Inductive reachable (p : Upload.Page) : App -> Prop :=
| reach_init : reachable p (init p)
| reach_step : forall u ev, reachable p u -> reachable p (handle ev u).

(** A file the uploader accepts. *)
Definition accepted (f : File) : Prop :=
  type f = lit "application/pdf" /\ size f <= 50 * 1024 * 1024.

(** [window.togglePreview] on the [style.height] of the text area. *)
Definition togglePreview (height : jsstring) : jsstring :=
  if streq height (lit "400px") then lit "150px" else lit "400px".

End Page.

(** ** More concrete runs *)

Module Cases.

Import Extractor.

(** A fresh instance on a page with a drop zone that is not highlighted. *)
Definition zone : Drag.Zone := Drag.mkZone (init Scenario.page) false.

(** A result on a page whose copy button reads [Copy Text]. *)
Definition desk : Clipboard.Desk :=
  Clipboard.mkDesk Scenario.result
    (Some (Clipboard.mkButton (lit "Copy Text") false)) None [] [].

(** A page like [Scenario.page] but without the error container. *)
Definition silent_page : Elements :=
  mkElements (Some []) (Some true) (Some 0) (Some [])
    (Some true) (Some []) None (Some [])
    (Some true) (Some []) (Some []).

(** The uploader with [a.pdf] selected and the extract button clicked. *)
Definition uextracting : Upload.App :=
  Upload.clickExtract (Scenario.uselected Scenario.a_pdf).

End Cases.

(** * Properties *)

Import Extractor.

(** ** Strings *)

Example formatFileSize_10MB :
  formatFileSize (10 * 1024 * 1024) = lit "10 MB".
Proof. vm_compute. reflexivity. Qed.

Example formatFileSize_1536 : formatFileSize 1536 = lit "1.5 KB".
Proof. vm_compute. reflexivity. Qed.

Example formatFileSize_1023 : formatFileSize 1023 = lit "1023 Bytes".
Proof. vm_compute. reflexivity. Qed.

Example replace_first_only :
  replace (lit ".pdf") [] (lit "a.pdfb.pdf") = lit "ab.pdf".
Proof. vm_compute. reflexivity. Qed.

Example utf8_four_widths :
  utf8_encode [0x54; 0xE9; 0x20AC; 0x1F600]
  = [0x54; 0xC3; 0xA9; 0xE2; 0x82; 0xAC; 0xF0; 0x9F; 0x98; 0x80].
Proof. vm_compute. reflexivity. Qed.

Example utf8_lone_surrogate : utf8_encode [0xD800] = [0xEF; 0xBF; 0xBD].
Proof. vm_compute. reflexivity. Qed.

Lemma streq_eq (a b : jsstring) : streq a b = true <-> a = b.
Proof.
  revert b; induction a as [|x a IH]; intros [|y b]; simpl; split;
    try congruence; try reflexivity.
  - intros H. apply andb_true_iff in H as [Hx Hr].
    apply Z.eqb_eq in Hx. apply IH in Hr. congruence.
  - intros H. injection H as -> ->. rewrite Z.eqb_refl. simpl. now apply IH.
Qed.

Lemma stripPrefix_app (p r : jsstring) : stripPrefix p (p ++ r) = Some r.
Proof.
  induction p as [|x p IH]; simpl.
  - now destruct r.
  - now rewrite Z.eqb_refl.
Qed.

Lemma stripPrefix_Some (p s r : jsstring) :
  stripPrefix p s = Some r -> s = p ++ r.
Proof.
  revert s; induction p as [|x p IH]; intros s H.
  - destruct s; simpl in H; injection H as <-; reflexivity.
  - destruct s as [|y s]; simpl in H; [discriminate|].
    destruct (Z.eqb_spec x y); [|discriminate].
    subst. simpl. f_equal. now apply IH.
Qed.


Ltac tests :=
  repeat match goal with
  | |- context [Z.ltb ?a ?b] => destruct (Z.ltb_spec a b); try lia
  | |- context [Z.leb ?a ?b] => destruct (Z.leb_spec a b); try lia
  end.

Lemma utf8_decode_cons (b0 : Z) (r0 : list Z) :
  utf8_decode (b0 :: r0) =
    if (0 <=? b0) && (b0 <? 0x80) then prepend b0 (utf8_decode r0)
    else if (0xC2 <=? b0) && (b0 <? 0xE0) then
      match r0 with
      | b1 :: r1 =>
          if continuation b1
          then prepend ((b0 - 0xC0) * 64 + (b1 - 0x80)) (utf8_decode r1)
          else None
      | _ => None
      end
    else if (0xE0 <=? b0) && (b0 <? 0xF0) then
      match r0 with
      | b1 :: b2 :: r2 =>
          let c := (b0 - 0xE0) * 4096 + (b1 - 0x80) * 64 + (b2 - 0x80) in
          if continuation b1 && continuation b2
             && (0x800 <=? c) && negb (surrogate c)
          then prepend c (utf8_decode r2)
          else None
      | _ => None
      end
    else if (0xF0 <=? b0) && (b0 <? 0xF5) then
      match r0 with
      | b1 :: b2 :: b3 :: r3 =>
          let c := (b0 - 0xF0) * 262144 + (b1 - 0x80) * 4096
                   + (b2 - 0x80) * 64 + (b3 - 0x80) in
          if continuation b1 && continuation b2 && continuation b3
             && (0x10000 <=? c) && (c <=? 0x10FFFF)
          then prepend c (utf8_decode r3)
          else None
      | _ => None
      end
    else None.
Proof. reflexivity. Qed.

Lemma decode_1 b0 bs : 0 <= b0 < 0x80 ->
  utf8_decode (b0 :: bs) = prepend b0 (utf8_decode bs).
Proof. intros H. rewrite utf8_decode_cons. tests. reflexivity. Qed.

Lemma decode_2 b0 b1 bs : 0xC2 <= b0 < 0xE0 -> 0x80 <= b1 < 0xC0 ->
  utf8_decode (b0 :: b1 :: bs)
  = prepend ((b0 - 0xC0) * 64 + (b1 - 0x80)) (utf8_decode bs).
Proof.
  intros H0 H1. rewrite utf8_decode_cons. unfold continuation.
  tests. reflexivity.
Qed.

Lemma decode_3 b0 b1 b2 bs :
  0xE0 <= b0 < 0xF0 -> 0x80 <= b1 < 0xC0 -> 0x80 <= b2 < 0xC0 ->
  let c := (b0 - 0xE0) * 4096 + (b1 - 0x80) * 64 + (b2 - 0x80) in
  0x800 <= c -> ~ (0xD800 <= c <= 0xDFFF) ->
  utf8_decode (b0 :: b1 :: b2 :: bs) = prepend c (utf8_decode bs).
Proof.
  intros H0 H1 H2 c Hc Hs. rewrite utf8_decode_cons.
  fold c. unfold continuation, surrogate.
  tests; reflexivity.
Qed.

Lemma decode_4 b0 b1 b2 b3 bs :
  0xF0 <= b0 < 0xF5 -> 0x80 <= b1 < 0xC0 -> 0x80 <= b2 < 0xC0 ->
  0x80 <= b3 < 0xC0 ->
  let c := (b0 - 0xF0) * 262144 + (b1 - 0x80) * 4096
           + (b2 - 0x80) * 64 + (b3 - 0x80) in
  0x10000 <= c <= 0x10FFFF ->
  utf8_decode (b0 :: b1 :: b2 :: b3 :: bs) = prepend c (utf8_decode bs).
Proof.
  intros H0 H1 H2 H3 c Hc. rewrite utf8_decode_cons.
  fold c. unfold continuation.
  tests; reflexivity.
Qed.

Ltac dlia := Z.div_mod_to_equations; lia.

Lemma utf8_decode_encode_cp (c : Z) (bs : list Z) :
  scalar c ->
  utf8_decode (utf8_encode_cp c ++ bs) = prepend c (utf8_decode bs).
Proof.
  intros Hc. unfold scalar in Hc. unfold utf8_encode_cp, surrogate.
  destruct (Z.ltb_spec c 0x80).
  { apply decode_1. lia. }
  destruct (Z.ltb_spec c 0x800).
  { cbn [app]. rewrite decode_2 by dlia. f_equal. dlia. }
  destruct (Z.ltb_spec c 0x10000).
  { destruct (Z.leb_spec 0xD800 c); destruct (Z.leb_spec c 0xDFFF);
      try lia; cbn [andb app]; rewrite decode_3 by dlia; f_equal; dlia. }
  cbn [app]. rewrite decode_4 by dlia. f_equal. dlia.
Qed.

Lemma utf8_roundtrip (s : jsstring) :
  Forall scalar s -> utf8_decode (utf8_encode s) = Some s.
Proof.
  induction 1 as [|c s Hc Hs IH]; [reflexivity|].
  unfold utf8_encode in *. cbn [flat_map].
  rewrite utf8_decode_encode_cp by assumption. now rewrite IH.
Qed.

Lemma replace_unfold (pat rep s : jsstring) :
  replace pat rep s =
    match stripPrefix pat s with
    | Some rest => rep ++ rest
    | None => match s with [] => [] | c :: s' => c :: replace pat rep s' end
    end.
Proof. destruct s; reflexivity. Qed.

Lemma replace_absent (pat rep s : jsstring) :
  ~ occurs pat s -> replace pat rep s = s.
Proof.
  induction s as [|c s IH]; intros Hno.
  - simpl. destruct (stripPrefix pat []) as [l|] eqn:E; [|reflexivity].
    exfalso. apply Hno. exists [], l. cbn [app]. now apply stripPrefix_Some.
  - cbn [replace]. destruct (stripPrefix pat (c :: s)) as [l|] eqn:E.
    + exfalso. apply Hno. exists [], l. cbn [app]. now apply stripPrefix_Some.
    + f_equal. apply IH. intros (pre & post & ->).
      apply Hno. now exists (c :: pre), post.
Qed.

Lemma replace_first (pat rep pre post s : jsstring) :
  first_occurrence pat pre post s ->
  replace pat rep s = pre ++ rep ++ post.
Proof.
  revert s. induction pre as [|c pre IH]; intros s [-> Hmin].
  - cbn [app]. rewrite replace_unfold. now rewrite stripPrefix_app.
  - cbn [app replace].
    destruct (stripPrefix pat (c :: pre ++ pat ++ post)) as [l|] eqn:E.
    + apply stripPrefix_Some in E.
      specialize (Hmin [] l E). simpl in Hmin. lia.
    + f_equal. apply IH. split; [reflexivity|].
      intros pre' post' E'.
      specialize (Hmin (c :: pre') post'). cbn [app] in Hmin.
      rewrite E' in Hmin. specialize (Hmin eq_refl). simpl in Hmin. lia.
Qed.

(** ** The extractor: what each method leaves alone *)

Lemma generateMockExtractedText_truthy (n now : jsstring) :
  falsy (generateMockExtractedText n now) = false.
Proof. reflexivity. Qed.

Lemma showError_frame msg a :
  config (showError msg a) = config a /\ state (showError msg a) = state a /\
  pending (showError msg a) = pending a /\
  resultsContainer (elements (showError msg a)) = resultsContainer (elements a).
Proof. unfold showError. destruct (errorContainer (elements a)); auto. Qed.

Lemma showFilePreview_frame f a :
  config (showFilePreview f a) = config a /\ state (showFilePreview f a) = state a /\
  pending (showFilePreview f a) = pending a /\
  resultsContainer (elements (showFilePreview f a)) = resultsContainer (elements a).
Proof. unfold showFilePreview. destruct (filePreview (elements a)); auto. Qed.

Lemma showProgress_frame a :
  config (showProgress a) = config a /\ state (showProgress a) = state a /\
  pending (showProgress a) = pending a /\
  resultsContainer (elements (showProgress a)) = resultsContainer (elements a).
Proof. unfold showProgress. destruct (progressContainer (elements a)); auto. Qed.

Lemma processFile_guard f a :
  isProcessing (state a) = true -> processFile f a = a.
Proof. unfold processFile. now intros ->. Qed.

Lemma processFile_start f a :
  isProcessing (state a) = false ->
  config (processFile f a) = config a /\
  state (processFile f a) = setIsProcessing true (state a) /\
  pending (processFile f a) = pending a ++ [mkTask f (tl steps)] /\
  resultsContainer (elements (processFile f a)) = resultsContainer (elements a).
Proof.
  unfold processFile. intros ->. unfold simulateProcessing. cbn [steps tl].
  unfold withPending, updateProgress, withElements; cbn.
  destruct (showProgress_frame (withState (setIsProcessing true) a)) as (Hc & Hs & Hp & Hr).
  rewrite Hc, Hs, Hp, Hr. auto.
Qed.

Lemma handleFileSelection_cases f a :
  (exists msg, validateFile (config a) f = Invalid msg /\
               handleFileSelection f a = showError msg a) \/
  (validateFile (config a) f = Valid /\
   handleFileSelection f a =
     processFile f (showFilePreview f
       (withState (setCurrentFile (Some f)) (hideError a)))).
Proof.
  unfold handleFileSelection.
  destruct (validateFile (config a) f) as [|msg]; [right|left; exists msg]; auto.
Qed.

Lemma handleFileSelection_one_flight f a :
  one_flight a -> one_flight (handleFileSelection f a).
Proof.
  intros H. destruct (handleFileSelection_cases f a) as [(msg & _ & ->)|[_ ->]].
  - destruct (showError_frame msg a) as (_ & Hs & Hp & _).
    unfold one_flight. now rewrite Hs, Hp.
  - set (b := showFilePreview f _).
    assert (Hb : state b = setCurrentFile (Some f) (state a) /\ pending b = pending a).
    { subst b. destruct (showFilePreview_frame f
        (withState (setCurrentFile (Some f)) (hideError a))) as (_ & Hs & Hp & _).
      now rewrite Hs, Hp. }
    destruct Hb as [Hs Hp].
    destruct (isProcessing (state a)) eqn:E.
    + rewrite processFile_guard by (rewrite Hs; exact E).
      unfold one_flight. rewrite Hs, Hp. exact H.
    + destruct (processFile_start f b) as (_ & Hs' & Hp' & _).
      { rewrite Hs. exact E. }
      unfold one_flight in *. rewrite Hs', Hp', Hp.
      destruct (pending a) as [|t [|t' q]]; cbn; auto; congruence.
Qed.

Lemma clearFile_frame a :
  config (clearFile a) = config a /\
  state (clearFile a) =
    mkState (isProcessing (state a)) None [] (dragCounter (state a)) /\
  pending (clearFile a) = pending a /\
  resultsContainer (elements (clearFile a))
  = assign (resultsContainer (elements a)) false.
Proof. repeat split. Qed.

Lemma showResults_frame text a :
  config (showResults text a) = config a /\
  state (showResults text a) = state a /\
  pending (showResults text a) = pending a /\
  resultsContainer (elements (showResults text a))
  = assign (resultsContainer (elements a)) true.
Proof.
  unfold showResults.
  destruct (resultsContainer (elements a)) eqn:E; cbn; rewrite ?E; auto.
Qed.

Lemma processFile_resume_frame f now a :
  config (processFile_resume f now a) = config a /\
  state (processFile_resume f now a) =
    mkState false (currentFile (state a))
      (generateMockExtractedText (name f) now) (dragCounter (state a)) /\
  pending (processFile_resume f now a) = pending a /\
  resultsContainer (elements (processFile_resume f now a))
  = assign (resultsContainer (elements a)) true.
Proof.
  unfold processFile_resume.
  set (text := generateMockExtractedText (name f) now).
  set (b := hideProgress _).
  destruct (showResults_frame text b) as (Hc & Hs & Hp & Hr).
  cbn [withState config state pending elements].
  rewrite Hc, Hs, Hp, Hr. repeat split.
Qed.

Lemma timer_cases now a :
  (pending a = [] /\ timer now a = a) \/
  (exists t s rest q, pending a = t :: q /\ remaining t = s :: rest /\
     timer now a = withPending (fun _ => q ++ [mkTask (file t) rest])
                     (updateProgress s a)) \/
  (exists t q, pending a = t :: q /\ remaining t = [] /\
     timer now a = processFile_resume (file t) now (withPending (fun _ => q) a)).
Proof.
  unfold timer. destruct (pending a) as [|t q]; [now left|right].
  destruct (remaining t) as [|s rest] eqn:E.
  - right. now exists t, q.
  - left. now exists t, s, rest, q.
Qed.

Lemma timer_one_flight now a : one_flight a -> one_flight (timer now a).
Proof.
  intros H.
  destruct (timer_cases now a)
    as [[_ ->]|[(t & s & rest & q & Hp & _ & ->)|(t & q & Hp & _ & ->)]];
    [exact H| |].
  - unfold one_flight in *. rewrite Hp in H. cbn.
    destruct q; [exact H|contradiction].
  - destruct (processFile_resume_frame (file t) now (withPending (fun _ => q) a))
      as (_ & Hs & Hp' & _).
    unfold one_flight in *. rewrite Hs, Hp'. rewrite Hp in H. cbn.
    destruct q; [reflexivity|contradiction].
Qed.

Lemma handle_one_flight ev a : one_flight a -> one_flight (handle ev a).
Proof.
  intros H. destruct ev as [| |f|f| | | | |now]; cbn [handle].
  - exact H.
  - exact H.
  - now apply handleFileSelection_one_flight.
  - now apply handleFileSelection_one_flight.
  - exact H.
  - unfold downloadText. destruct (currentFile (state a)); [|exact H].
    destruct (falsy _); exact H.
  - unfold handleEscapeKey. destruct (negb _ && _); exact H.
  - exact H.
  - now apply timer_one_flight.
Qed.

Lemma assign_assign {A : Type} (el : option A) (v w : A) :
  assign (assign el v) w = assign el w.
Proof. now destruct el. Qed.

Lemma handleFileSelection_frame f a :
  config (handleFileSelection f a) = config a /\
  extractedText (state (handleFileSelection f a)) = extractedText (state a) /\
  dragCounter (state (handleFileSelection f a)) = dragCounter (state a) /\
  resultsContainer (elements (handleFileSelection f a))
  = resultsContainer (elements a) /\
  downloads (handleFileSelection f a) = downloads a.
Proof.
  destruct (handleFileSelection_cases f a) as [(msg & _ & ->)|[_ ->]].
  - unfold showError. destruct (errorContainer (elements a)); auto.
  - set (b := showFilePreview f _).
    assert (Hb : config b = config a /\
                 state b = setCurrentFile (Some f) (state a) /\
                 resultsContainer (elements b) = resultsContainer (elements a) /\
                 downloads b = downloads a).
    { subst b. unfold showFilePreview.
      destruct (filePreview (elements (withState _ (hideError a)))); auto. }
    destruct Hb as (Hc & Hs & Hr & Hd).
    unfold processFile. destruct (isProcessing (state b)).
    + rewrite Hc, Hs, Hr, Hd. auto.
    + unfold simulateProcessing, showProgress. cbn [steps].
      destruct (progressContainer (elements (withState (setIsProcessing true) b)));
        cbn; rewrite Hc, Hs, Hr, Hd; auto.
Qed.

(** ** The extractor: invariants of the states reachable on a page *)

Section Reachable.

Variable page : Elements.

Lemma reachable_one_flight a : reachable page a -> one_flight a.
Proof.
  induction 1; [reflexivity|]. now apply handle_one_flight.
Qed.

Lemma timer_results_sync now a :
  results_sync page a -> results_sync page (timer now a).
Proof.
  unfold results_sync. intros H.
  destruct (timer_cases now a)
    as [[_ ->]|[(t & s & rest & q & _ & _ & ->)|(t & q & _ & _ & ->)]];
    [exact H|exact H|].
  destruct (processFile_resume_frame (file t) now (withPending (fun _ => q) a))
    as (_ & Hs & _ & Hr).
  rewrite Hs, Hr. cbn [extractedText withPending elements].
  rewrite generateMockExtractedText_truthy, H. apply assign_assign.
Qed.

Lemma clearFile_results_sync a :
  results_sync page a -> results_sync page (clearFile a).
Proof.
  unfold results_sync. intros H.
  destruct (clearFile_frame a) as (_ & Hs & _ & Hr).
  rewrite Hs, Hr, H. apply assign_assign.
Qed.

Lemma handle_results_sync ev a :
  results_sync page a -> results_sync page (handle ev a).
Proof.
  intros H. destruct ev as [| |f|f| | | | |now]; cbn [handle].
  - exact H.
  - exact H.
  - destruct (handleFileSelection_frame f (withState (setDragCounter 0) a))
      as (_ & Ht & _ & Hr & _).
    unfold results_sync. rewrite Ht, Hr. exact H.
  - destruct (handleFileSelection_frame f a) as (_ & Ht & _ & Hr & _).
    unfold results_sync. rewrite Ht, Hr. exact H.
  - now apply clearFile_results_sync.
  - unfold downloadText. destruct (currentFile (state a)); [|exact H].
    destruct (falsy _); exact H.
  - unfold handleEscapeKey.
    destruct (negb _ && _); [apply clearFile_results_sync|]; exact H.
  - unfold reset. apply clearFile_results_sync in H. exact H.
  - now apply timer_results_sync.
Qed.

Lemma reachable_results_sync a : reachable page a -> results_sync page a.
Proof.
  induction 1; [reflexivity|]. now apply handle_results_sync.
Qed.

Lemma handle_config ev a : config (handle ev a) = config a.
Proof.
  destruct ev as [| |f|f| | | | |now]; cbn [handle]; try reflexivity.
  - now destruct
      (handleFileSelection_frame f (withState (setDragCounter 0) a)).
  - now destruct (handleFileSelection_frame f a).
  - unfold downloadText. destruct (currentFile (state a)); [|reflexivity].
    now destruct (falsy _).
  - unfold handleEscapeKey. now destruct (negb _ && _).
  - destruct (timer_cases now a)
      as [[_ ->]|[(t & s & rest & q & _ & _ & ->)|(t & q & _ & _ & ->)]];
      try reflexivity.
    now destruct (processFile_resume_frame (file t) now
                    (withPending (fun _ => q) a)).
Qed.

Lemma reachable_config a : reachable page a -> config a = defaultConfig.
Proof.
  induction 1; [reflexivity|]. now rewrite handle_config.
Qed.

Lemma reachable_run evs : forall a,
  reachable page a -> reachable page (run evs a).
Proof.
  induction evs as [|ev evs IH]; intros a H; cbn [run]; [exact H|].
  apply IH. now apply reach_step.
Qed.

End Reachable.

(** ** Runs *)

Lemma reachable_processing : reachable Scenario.page Scenario.processing.
Proof.
  exact (reachable_run Scenario.page [Change Scenario.a_pdf] _
           (reach_init Scenario.page)).
Qed.

Lemma reachable_result : reachable Scenario.page Scenario.result.
Proof.
  exact (reachable_run Scenario.page Scenario.settle _ reachable_processing).
Qed.

Lemma reachable_cleared_then_settled :
  reachable Scenario.page Scenario.cleared_then_settled.
Proof.
  exact (reachable_run Scenario.page (ClickClear :: Scenario.settle) _
           reachable_processing).
Qed.

Lemma run_app evs evs' a : run (evs ++ evs') a = run evs' (run evs a).
Proof. revert a; induction evs as [|ev evs IH]; intros a; cbn; auto. Qed.

Lemma run_ticks (nows : list jsstring) : forall b t,
  pending b = [t] -> List.length nows = List.length (remaining t) ->
  pending (run (map Timer nows) b) = [mkTask (file t) []] /\
  state (run (map Timer nows) b) = state b /\
  resultsContainer (elements (run (map Timer nows) b))
  = resultsContainer (elements b).
Proof.
  induction nows as [|now nows IH]; intros b t Hp Hl.
  - destruct t as [f [|s rest]]; [|discriminate]. cbn. auto.
  - destruct t as [f [|s rest]]; [discriminate|].
    cbn [map run handle]. unfold timer. rewrite Hp. cbn [remaining file app].
    injection Hl as Hl.
    destruct (IH (withPending (fun _ => [mkTask f rest]) (updateProgress s b))
                 (mkTask f rest) eq_refl Hl) as (H1 & H2 & H3).
    rewrite H1, H2, H3. auto.
Qed.

(** ** The claims *)

(** C1 (amended).  When [clearFile] runs while an extraction is in flight
    there is no sequence number to tell the attempt it is stale:
    [isProcessing] stays set and the attempt stays pending, and when its
    timers have fired it stores the text it generates for its own file in
    [extractedText], shows the results panel and clears [isProcessing],
    with [currentFile] still [null]. *)
Theorem stale_completion_is_stored (page : Elements) (a : App) :
  reachable page a -> isProcessing (state a) = true ->
  exists t, pending a = [t] /\
    pending (clearFile a) = [t] /\
    isProcessing (state (clearFile a)) = true /\
    extractedText (state (clearFile a)) = [] /\
    forall nows now,
      List.length nows = List.length (remaining t) ->
      let settled := run (map Timer (nows ++ [now])) (clearFile a) in
      extractedText (state settled)
      = generateMockExtractedText (name (file t)) now /\
      extractedText (state settled) <> [] /\
      isProcessing (state settled) = false /\
      currentFile (state settled) = None /\
      pending settled = [] /\
      resultsContainer (elements settled)
      = assign (resultsContainer (elements a)) true.
Proof.
  intros Hr Hproc. apply reachable_one_flight in Hr. unfold one_flight in Hr.
  destruct (pending a) as [|t [|t' q]] eqn:Hp; [congruence| |contradiction].
  exists t. destruct (clearFile_frame a) as (_ & Hs & Hq & Hres).
  rewrite Hq, Hs, Hp. cbn [isProcessing extractedText].
  repeat split; auto.
  all: rewrite map_app, run_app;
    destruct (run_ticks nows (clearFile a) t) as (H1 & H2 & H3);
      [now rewrite Hq|assumption|];
    cbn [map run handle]; unfold timer; rewrite H1; cbn [remaining file];
    match goal with
    | |- context [processFile_resume ?f ?n ?b] =>
        destruct (processFile_resume_frame f n b) as (_ & Hs' & Hp' & Hr')
    end;
    rewrite ?Hs', ?Hp', ?Hr'; cbn [withPending state pending elements
      extractedText isProcessing currentFile]; rewrite ?H2, ?H3, ?Hs, ?Hres;
    cbn [currentFile]; auto using assign_assign.
  intros E. pose proof (generateMockExtractedText_truthy (name (file t)) now) as Hf.
  rewrite E in Hf. discriminate.
Qed.

Lemma stale_completion_is_stored_witness :
  exists t, pending Scenario.processing = [t] /\
    extractedText
      (state (run (map Timer ([Scenario.now; Scenario.now; Scenario.now;
                               Scenario.now] ++ [Scenario.now]))
                  (clearFile Scenario.processing)))
    = generateMockExtractedText (name (file t)) Scenario.now.
Proof.
  destruct (stale_completion_is_stored Scenario.page Scenario.processing)
    as (t & Hp & _ & _ & _ & H).
  - exact reachable_processing.
  - reflexivity.
  - exists t. split; [exact Hp|].
    apply H. vm_compute in Hp. injection Hp as <-.
    reflexivity.
Defined.

(** C1 as stated fails: the clear button is hit while [a.pdf] is being
    processed, which empties [extractedText]; the five timers of the
    attempt then fire, and the session shows a result with the text
    generated for [a.pdf]. *)
Lemma stale_completion_counterexample :
  isProcessing (state Scenario.processing) = true /\
  extractedText (state (clearFile Scenario.processing)) = [] /\
  extractedText (state Scenario.cleared_then_settled)
  = generateMockExtractedText (lit "a.pdf") Scenario.now /\
  extractedText (state Scenario.cleared_then_settled) <> [] /\
  session Scenario.cleared_then_settled = Result.
Proof.
  repeat split; try (vm_compute; reflexivity).
  vm_compute. discriminate.
Qed.

(** C2 (amended).  A file handed to [handleFileSelection] while
    [isProcessing] is set starts no second extraction: the flag, the
    pending attempt, [extractedText] and the downloads stay as they are,
    and a file that fails validation only brings up the error banner and
    leaves [this.state] as it is. *)
Theorem selection_while_processing (a : App) (f : File) :
  isProcessing (state a) = true ->
  isProcessing (state (handleFileSelection f a)) = true /\
  pending (handleFileSelection f a) = pending a /\
  extractedText (state (handleFileSelection f a)) = extractedText (state a) /\
  dragCounter (state (handleFileSelection f a)) = dragCounter (state a) /\
  config (handleFileSelection f a) = config a /\
  downloads (handleFileSelection f a) = downloads a /\
  forall msg, validateFile (config a) f = Invalid msg ->
    handleFileSelection f a = showError msg a /\
    state (handleFileSelection f a) = state a.
Proof.
  intros Hproc.
  destruct (handleFileSelection_frame f a) as (Hc & Ht & Hd & _ & Hdl).
  assert (H : isProcessing (state (handleFileSelection f a)) = true /\
              pending (handleFileSelection f a) = pending a /\
              forall msg, validateFile (config a) f = Invalid msg ->
                handleFileSelection f a = showError msg a /\
                state (handleFileSelection f a) = state a).
  { destruct (handleFileSelection_cases f a) as [(msg & Hv & E)|[Hv E]];
      rewrite Hv, E.
    - destruct (showError_frame msg a) as (_ & Hs & Hp & _).
      rewrite Hs, Hp. split; [exact Hproc|]. split; [reflexivity|].
      intros msg' [= <-]. auto.
    - destruct (showFilePreview_frame f
        (withState (setCurrentFile (Some f)) (hideError a)))
        as (_ & Hs & Hp & _).
      rewrite processFile_guard by (rewrite Hs; exact Hproc).
      rewrite Hs, Hp. split; [exact Hproc|]. split; [reflexivity|].
      discriminate. }
  destruct H as (H1 & H2 & H3). auto 10.
Qed.

Lemma selection_while_processing_witness :
  pending (handleFileSelection Scenario.b_pdf Scenario.processing)
  = pending Scenario.processing /\
  extractedText (state (handleFileSelection Scenario.b_pdf Scenario.processing))
  = extractedText (state Scenario.processing).
Proof.
  assert (Hproc : isProcessing (state Scenario.processing) = true)
    by reflexivity.
  pose proof (selection_while_processing Scenario.processing
                Scenario.b_pdf Hproc) as H.
  split; [exact (proj1 (proj2 H))|exact (proj1 (proj2 (proj2 H)))].
Defined.

(** C2 as stated fails: while [a.pdf] is being processed, [b.pdf] is
    chosen; it passes validation and takes the place of [a.pdf] in
    [currentFile]. *)
Lemma selection_while_processing_counterexample :
  isProcessing (state Scenario.processing) = true /\
  currentFile (state Scenario.processing) = Some Scenario.a_pdf /\
  currentFile (state (handleFileSelection Scenario.b_pdf Scenario.processing))
  = Some Scenario.b_pdf /\
  state (handleFileSelection Scenario.b_pdf Scenario.processing)
  <> state Scenario.processing.
Proof.
  repeat split; try (vm_compute; reflexivity).
  vm_compute. discriminate.
Qed.

Lemma falsy_nil (s : jsstring) : falsy s = true <-> s = [].
Proof. destruct s; cbn; split; congruence. Qed.

(** C3 (amended).  On a page that has the results panel, in every
    reachable state [extractedText] is non-empty exactly when the panel
    is on display, that is, when an extraction has completed since the
    last [clearFile]: it is non-empty in [Result] and empty in [Idle] and
    [FileSelected].  Neither a new selection nor an error empties it, so
    nothing is said of [Processing] and [Error]. *)
Theorem extractedText_iff_results_shown (page : Elements) (a : App) :
  reachable page a ->
  present (resultsContainer page) = true ->
  (extractedText (state a) <> [] <->
   shown (resultsContainer (elements a)) = true) /\
  (session a = Result -> extractedText (state a) <> []) /\
  (session a = Idle \/ session a = FileSelected ->
   extractedText (state a) = []).
Proof.
  intros Hr Hpage. apply reachable_results_sync in Hr.
  unfold results_sync in Hr.
  destruct (resultsContainer page) as [d|]; [clear Hpage|discriminate].
  cbn [assign] in Hr.
  assert (Hiff : extractedText (state a) <> [] <->
                 shown (resultsContainer (elements a)) = true).
  { rewrite Hr. cbn [shown].
    destruct (extractedText (state a)); cbn; split; congruence. }
  split; [exact Hiff|]. unfold session.
  destruct (isProcessing (state a)).
  { split; [discriminate|intros [|]; discriminate]. }
  destruct (shown (errorContainer (elements a))).
  { split; [discriminate|intros [|]; discriminate]. }
  destruct (shown (resultsContainer (elements a))).
  - split; [intros _; now apply Hiff|].
    intros [|]; discriminate.
  - split.
    + destruct (present (currentFile (state a))); discriminate.
    + intros _. destruct (extractedText (state a)); [reflexivity|].
          assert (false = true) by (apply Hiff; discriminate). discriminate.
Qed.

Lemma extractedText_iff_results_shown_witness :
  session Scenario.result = Result /\
  extractedText (state Scenario.result) <> [].
Proof.
  assert (Hs : session Scenario.result = Result) by (vm_compute; reflexivity).
  split; [exact Hs|].
  exact (proj1 (proj2 (extractedText_iff_results_shown
                         Scenario.page Scenario.result
                         reachable_result eq_refl)) Hs).
Defined.

(** C3 as stated fails: after a result for [a.pdf], choosing [b.pdf]
    enters [Processing] with the text of [a.pdf] still in
    [extractedText], and choosing a file that is no PDF enters [Error]
    with it. *)
Lemma extractedText_iff_result_counterexample :
  reachable Scenario.page Scenario.second_processing /\
  session Scenario.second_processing = Processing /\
  extractedText (state Scenario.second_processing) <> [] /\
  reachable Scenario.page Scenario.error_after_result /\
  session Scenario.error_after_result = Error /\
  extractedText (state Scenario.error_after_result) <> [].
Proof.
  pose proof reachable_result as Hres.
  split; [exact (reach_step _ _ _ Hres)|].
  split; [vm_compute; reflexivity|].
  split; [vm_compute; discriminate|].
  split; [exact (reach_step _ _ _ Hres)|].
  split; [vm_compute; reflexivity|].
  vm_compute; discriminate.
Qed.

Lemma processFile_sets_flag f a : isProcessing (state (processFile f a)) = true.
Proof.
  destruct (isProcessing (state a)) eqn:E.
  - now rewrite processFile_guard.
  - destruct (processFile_start f a E) as (_ & -> & _). reflexivity.
Qed.

(** C4 (amended).  In [script.js] the guard of [processFile] makes a
    second call while the first is in flight a no-op: whatever the state,
    [processFile] called twice in a row does what the first call does,
    and in every reachable state at most one attempt is pending, one
    exactly when [isProcessing] is set.  The uploader of [part_000] has
    no such guard: every [extractPDF] sets a timer of its own, whatever
    is pending, so two clicks on the extract button with a file stored
    leave two timers more. *)
Theorem second_processFile_is_noop (page : Elements) (a : App)
    (f1 f2 : File) :
  reachable page a ->
  processFile f2 (processFile f1 a) = processFile f1 a /\
  (List.length (pending a) <= 1)%nat /\
  (isProcessing (state a) = true <-> List.length (pending a) = 1%nat) /\
  (List.length (pending (processFile f1 a)) = 1)%nat /\
  (isProcessing (state a) = false ->
   pending (processFile f1 a) = [mkTask f1 (tl steps)]) /\
  forall u : Upload.App,
    Upload.timers (Upload.extractPDF u) = S (Upload.timers u) /\
    (forall f, Upload.currentFile u = Some f ->
       Upload.clickExtract u = Upload.extractPDF u /\
       Upload.timers (Upload.clickExtract (Upload.clickExtract u))
       = S (S (Upload.timers u))).
Proof.
  intros Hr. apply reachable_one_flight in Hr. unfold one_flight in Hr.
  split; [apply processFile_guard, processFile_sets_flag|].
  assert (Hu : forall u : Upload.App,
             Upload.timers (Upload.extractPDF u) = S (Upload.timers u) /\
             (forall f, Upload.currentFile u = Some f ->
                Upload.clickExtract u = Upload.extractPDF u /\
                Upload.timers (Upload.clickExtract (Upload.clickExtract u))
                = S (S (Upload.timers u)))).
  { intros [cf pg t al dl]. split; [reflexivity|]. cbn. intros f ->.
    split; reflexivity. }
  destruct (isProcessing (state a)) eqn:E.
  - rewrite processFile_guard by exact E.
    destruct (pending a) as [|t [|t' q]]; [discriminate| |contradiction].
    cbn. split; [auto|]. split; [split; intros; auto; discriminate|].
    split; [reflexivity|].
    split; [intros; first [discriminate|reflexivity]|exact Hu].
  - destruct (processFile_start f1 a E) as (_ & _ & Hp & _).
    rewrite Hp.
    destruct (pending a) as [|t [|t' q]]; [|discriminate|contradiction].
    cbn. split; [auto|]. split; [split; intros; auto; discriminate|].
    split; [reflexivity|].
    split; [intros; first [discriminate|reflexivity]|exact Hu].
Qed.

Lemma second_processFile_is_noop_witness :
  processFile Scenario.b_pdf (processFile Scenario.a_pdf (init Scenario.page))
  = processFile Scenario.a_pdf (init Scenario.page).
Proof.
  exact (proj1 (second_processFile_is_noop Scenario.page (init Scenario.page)
                  Scenario.a_pdf Scenario.b_pdf (reach_init Scenario.page))).
Defined.

(** C4 as stated fails on [part_000]: with a file selected, the extract
    button is clicked twice before the first timer has fired, and two
    timers are pending. *)
Lemma extractPDF_twice_counterexample :
  Upload.currentFile (Scenario.uselected Scenario.a_pdf)
  = Some Scenario.a_pdf /\
  Upload.timers (Upload.clickExtract (Scenario.uselected Scenario.a_pdf))
  = 1%nat /\
  Upload.timers
    (Upload.clickExtract
       (Upload.clickExtract (Scenario.uselected Scenario.a_pdf)))
  = 2%nat.
Proof. repeat split; vm_compute; reflexivity. Qed.

Lemma includes_singleton (t x : jsstring) :
  includes [t] x = true <-> x = t.
Proof.
  unfold includes. cbn [existsb]. rewrite orb_false_r. apply streq_eq.
Qed.

(** C5 (amended).  A candidate whose type is not [application/pdf]
    fails validation with the message [Please select a PDF file only.],
    and [handleFileSelection] leaves [this.state], the stored file with
    it, and the pending attempt as they were.  On a page that has the
    error banner it shows the banner with that message, and the session
    is [Error] when [isProcessing] is not set.  While [isProcessing] is
    set the session stays [Processing], and on a page without the banner
    nothing changes at all. *)
Theorem non_pdf_is_rejected (a : App) (f : File) :
  allowedTypes (config a) = [lit "application/pdf"] ->
  type f <> lit "application/pdf" ->
  validateFile (config a) f = Invalid (lit "Please select a PDF file only.") /\
  lit "Please select a PDF file only." <> [] /\
  state (handleFileSelection f a) = state a /\
  currentFile (state (handleFileSelection f a)) = currentFile (state a) /\
  pending (handleFileSelection f a) = pending a /\
  (present (errorContainer (elements a)) = true ->
   shown (errorContainer (elements (handleFileSelection f a))) = true /\
   errorMessage (elements (handleFileSelection f a))
   = assign (errorMessage (elements a))
       (lit "Please select a PDF file only.") /\
   (isProcessing (state a) = false ->
    session (handleFileSelection f a) = Error)) /\
  (isProcessing (state a) = true ->
   session (handleFileSelection f a) = Processing) /\
  (errorContainer (elements a) = None -> handleFileSelection f a = a).
Proof.
  intros Hcfg Hty.
  assert (Hv : validateFile (config a) f
               = Invalid (lit "Please select a PDF file only.")).
  { unfold validateFile. rewrite Hcfg.
    destruct (includes [lit "application/pdf"] (type f)) eqn:E; [|reflexivity].
    apply includes_singleton in E. contradiction. }
  assert (Hh : handleFileSelection f a
               = showError (lit "Please select a PDF file only.") a).
  { unfold handleFileSelection. now rewrite Hv. }
  rewrite Hh. split; [exact Hv|]. split; [discriminate|].
  destruct (showError_frame (lit "Please select a PDF file only.") a)
    as (_ & Hs & Hp & _).
  rewrite Hs, Hp. do 3 (split; [reflexivity|]).
  unfold showError, session.
  destruct (errorContainer (elements a)) as [d|].
  - cbn [withElements state pending elements errorContainer errorMessage
         shown present].
    split; [intros _; repeat split; now intros ->|].
    split; [now intros ->|discriminate].
  - split; [discriminate|]. split; [now intros ->|reflexivity].
Qed.

Lemma non_pdf_is_rejected_witness :
  session (handleFileSelection Scenario.big_png (init Scenario.page)) = Error /\
  currentFile (state (handleFileSelection Scenario.big_png (init Scenario.page)))
  = None.
Proof.
  assert (Hty : type Scenario.big_png <> lit "application/pdf")
    by (vm_compute; discriminate).
  pose proof (non_pdf_is_rejected (init Scenario.page) Scenario.big_png
                eq_refl Hty) as H.
  split.
  - exact (proj2 (proj2 (proj1 (proj2 (proj2 (proj2 (proj2 (proj2 H)))))
                           eq_refl)) eq_refl).
  - exact (proj1 (proj2 (proj2 (proj2 H)))).
Defined.

(** C5 as stated fails: a PNG chosen while [a.pdf] is being processed
    leaves the session in [Processing], and on a page without the error
    container it leaves a fresh session [Idle]. *)
Lemma non_pdf_counterexample :
  type Scenario.big_png <> lit "application/pdf" /\
  reachable Scenario.page Scenario.processing /\
  session Scenario.processing = Processing /\
  session (handleFileSelection Scenario.big_png Scenario.processing)
  = Processing /\
  session (init Cases.silent_page) = Idle /\
  session (handleFileSelection Scenario.big_png (init Cases.silent_page))
  = Idle.
Proof.
  split; [vm_compute; discriminate|].
  split; [exact reachable_processing|].
  repeat split; vm_compute; reflexivity.
Qed.




Lemma downloadText_some (a : App) (f : File) :
  currentFile (state a) = Some f -> extractedText (state a) <> [] ->
  downloadText a
  = showNotification (lit "Download started!") (lit "success")
      (mkApp (config a) (state a) (elements a) (pending a) (notification a)
         (downloads a
          ++ [mkDownload
                (replace (lit ".pdf") [] (name f) ++ lit "_extracted.txt")
                (utf8_encode (extractedText (state a)))
                (lit "text/plain")])).
Proof.
  intros Hf Ht. unfold downloadText. rewrite Hf.
  destruct (extractedText (state a)); [contradiction|reflexivity].
Qed.

Lemma downloadText_none (a : App) :
  currentFile (state a) = None \/ extractedText (state a) = [] ->
  downloadText a = a.
Proof.
  unfold downloadText. intros [->| ->]; [reflexivity|].
  now destruct (currentFile (state a)).
Qed.

(** C7.  With [extractedText] a non-empty text [T] of Unicode scalar
    values and a current file named [report.pdf], [downloadText] starts
    one download, named [report_extracted.txt], whose bytes decode as
    UTF-8 to [T]; so does [window.downloadText] of [part_000] on the
    content [T] of its text area. *)
Theorem export_round_trip (T : jsstring) (f : File) :
  name f = lit "report.pdf" ->
  T <> [] ->
  Forall scalar T ->
  (forall a : App,
     currentFile (state a) = Some f ->
     extractedText (state a) = T ->
     exists d,
       downloads (downloadText a) = downloads a ++ [d] /\
       download d = lit "report_extracted.txt" /\
       utf8_decode (blob d) = Some T) /\
  (forall u : Upload.App,
     Upload.currentFile u = Some f ->
     Upload.extractedText (Upload.page u) = Some T ->
     exists d,
       Upload.downloads (Upload.downloadText u) = Upload.downloads u ++ [d] /\
       download d = lit "report_extracted.txt" /\
       utf8_decode (blob d) = Some T).
Proof.
  intros Hn Hne Hsc. split.
  - intros a Hf Ht.
    rewrite (downloadText_some a f Hf) by (rewrite Ht; exact Hne).
    eexists. split; [reflexivity|]. cbn [download blob].
    rewrite Hn, Ht. split; [reflexivity|]. now apply utf8_roundtrip.
  - intros u Hf Ht. unfold Upload.downloadText. rewrite Hf, Ht.
    eexists. split; [reflexivity|]. cbn [download blob].
    rewrite Hn. split; [reflexivity|]. now apply utf8_roundtrip.
Qed.

Lemma export_round_trip_witness :
  exists d,
    downloads (downloadText Scenario.report_result) = [d] /\
    download d = lit "report_extracted.txt" /\
    utf8_decode (blob d) = Some (lit "T").
Proof.
  assert (Hne : lit "T" <> []) by discriminate.
  assert (Hsc : Forall scalar (lit "T")).
  { repeat constructor. unfold scalar. cbn. lia. }
  exact (proj1 (export_round_trip (lit "T") Scenario.report_pdf
                  eq_refl Hne Hsc) Scenario.report_result eq_refl eq_refl).
Defined.

(** C8 (amended).  [downloadText] looks at no state name: it starts a
    download exactly when [extractedText] is non-empty and [currentFile]
    is set, also while [isProcessing] is set or the error banner is up;
    otherwise it returns without a download and without an error, the
    instance unchanged. *)
Theorem downloadText_guard (a : App) :
  (currentFile (state a) = None \/ extractedText (state a) = [] ->
   downloadText a = a) /\
  (forall f, currentFile (state a) = Some f ->
     extractedText (state a) <> [] ->
     downloads (downloadText a)
     = downloads a
       ++ [mkDownload
             (replace (lit ".pdf") [] (name f) ++ lit "_extracted.txt")
             (utf8_encode (extractedText (state a)))
             (lit "text/plain")] /\
     state (downloadText a) = state a /\
     elements (downloadText a) = elements a /\
     pending (downloadText a) = pending a /\
     notification (downloadText a)
     = Some (lit "Download started!", lit "success")).
Proof.
  split; [apply downloadText_none|].
  intros f Hf Ht. rewrite (downloadText_some a f Hf Ht). repeat split.
Qed.

Lemma downloadText_guard_witness :
  downloadText (init Scenario.page) = init Scenario.page /\
  downloadText Scenario.processing = Scenario.processing.
Proof.
  split.
  - exact (proj1 (downloadText_guard (init Scenario.page))
             (or_introl eq_refl)).
  - exact (proj1 (downloadText_guard Scenario.processing)
             (or_intror eq_refl)).
Defined.

(** C8 as stated fails: in the [Processing] state entered by choosing
    [b.pdf] after a result for [a.pdf], [downloadText] starts a download
    named [b_extracted.txt] with the text of [a.pdf]. *)
Lemma export_while_processing_counterexample :
  session Scenario.second_processing = Processing /\
  map download (downloads (downloadText Scenario.second_processing))
  = [lit "b_extracted.txt"] /\
  map blob (downloads (downloadText Scenario.second_processing))
  = [utf8_encode (generateMockExtractedText (lit "a.pdf") Scenario.now)].
Proof. repeat split; vm_compute; reflexivity. Qed.

Lemma shown_assign_false (el : option bool) : shown (assign el false) = false.
Proof. now destruct el. Qed.

(** C9 (amended).  The escape key always hides the error banner.  With
    [isProcessing] clear and a file stored, it goes on with [clearFile]:
    the file and the text are dropped, every panel is hidden, the session
    is [Idle].  With [isProcessing] set, or with no file stored, it does
    nothing else: [this.state] and the pending attempt are as before, and
    a session in [Processing] stays there. *)
Theorem escape_key (a : App) :
  (isProcessing (state a) = false ->
   forall f, currentFile (state a) = Some f ->
     handleEscapeKey a = clearFile (hideError a) /\
     currentFile (state (handleEscapeKey a)) = None /\
     extractedText (state (handleEscapeKey a)) = [] /\
     shown (errorContainer (elements (handleEscapeKey a))) = false /\
     session (handleEscapeKey a) = Idle) /\
  (isProcessing (state a) = true \/ currentFile (state a) = None ->
   handleEscapeKey a = hideError a /\
   state (handleEscapeKey a) = state a /\
   pending (handleEscapeKey a) = pending a /\
   shown (errorContainer (elements (handleEscapeKey a))) = false) /\
  (isProcessing (state a) = true -> session (handleEscapeKey a) = Processing).
Proof.
  assert (Hstay : isProcessing (state a) = true \/ currentFile (state a) = None ->
                  handleEscapeKey a = hideError a).
  { unfold handleEscapeKey. cbn [hideError withElements state].
    intros [->| ->]; [reflexivity|]. now rewrite andb_false_r. }
  split; [|split].
  - intros Hp f Hf.
    assert (E : handleEscapeKey a = clearFile (hideError a)).
    { unfold handleEscapeKey. cbn [hideError withElements state].
      now rewrite Hp, Hf. }
    rewrite E. split; [reflexivity|].
    unfold session.
    cbn [clearFile hideError hideProgress hideResults hideFilePreview
         withElements withState state elements setCurrentFile
         setExtractedText isProcessing currentFile extractedText
         errorContainer resultsContainer present].
    rewrite Hp, !assign_assign, !shown_assign_false. auto.
  - intros H. rewrite (Hstay H).
    cbn [hideError withElements state pending elements errorContainer].
    rewrite shown_assign_false. auto.
  - intros Hp. rewrite (Hstay (or_introl Hp)). unfold session.
    cbn [hideError withElements state]. now rewrite Hp.
Qed.

Lemma escape_key_witness :
  session (handleEscapeKey Scenario.result) = Idle /\
  state (handleEscapeKey Scenario.processing) = state Scenario.processing.
Proof.
  assert (Hp : isProcessing (state Scenario.result) = false)
    by (vm_compute; reflexivity).
  assert (Hf : currentFile (state Scenario.result) = Some Scenario.a_pdf)
    by (vm_compute; reflexivity).
  split.
  - exact (proj2 (proj2 (proj2 (proj2
             (proj1 (escape_key Scenario.result) Hp Scenario.a_pdf Hf))))).
  - exact (proj1 (proj2 (proj1 (proj2 (escape_key Scenario.processing))
                           (or_introl eq_refl)))).
Defined.

(** C9 as stated fails: after the clear button was hit during an
    extraction that then completed, the session shows a result and has
    no stored file; it is not [Processing], and the escape key leaves it
    showing the result. *)
Lemma escape_key_counterexample :
  reachable Scenario.page Scenario.cleared_then_settled /\
  session Scenario.cleared_then_settled = Result /\
  session (handleEscapeKey Scenario.cleared_then_settled) = Result /\
  extractedText (state (handleEscapeKey Scenario.cleared_then_settled)) <> [].
Proof.
  split; [exact reachable_cleared_then_settled|].
  split; [vm_compute; reflexivity|].
  split; [vm_compute; reflexivity|].
  vm_compute. discriminate.
Qed.

(** C10 (amended).  In [script.js] the name [downloadText] suggests is
    the file name with the first occurrence of [.pdf] removed, wherever
    it is, followed by [_extracted.txt]; a name without [.pdf] gets the
    suffix appended.  In [part_000], [window.downloadText] and
    [window.downloadExcel] put [_extracted.txt] in the place of the first
    occurrence of [.pdf], and leave a name without [.pdf] as it is. *)
Theorem download_name (f : File) :
  (forall a : App,
     currentFile (state a) = Some f -> extractedText (state a) <> [] ->
     exists d,
       downloads (downloadText a) = downloads a ++ [d] /\
       (forall pre post,
          first_occurrence (lit ".pdf") pre post (name f) ->
          download d = pre ++ post ++ lit "_extracted.txt") /\
       (~ occurs (lit ".pdf") (name f) ->
        download d = name f ++ lit "_extracted.txt")) /\
  (forall (u : Upload.App) (content : jsstring),
     Upload.currentFile u = Some f ->
     Upload.extractedText (Upload.page u) = Some content ->
     exists d,
       Upload.downloads (Upload.downloadText u) = Upload.downloads u ++ [d] /\
       Upload.downloadExcel u = Upload.downloadText u /\
       (forall pre post,
          first_occurrence (lit ".pdf") pre post (name f) ->
          download d = pre ++ lit "_extracted.txt" ++ post) /\
       (~ occurs (lit ".pdf") (name f) -> download d = name f)).
Proof.
  split.
  - intros a Hf Ht. rewrite (downloadText_some a f Hf Ht).
    eexists. split; [reflexivity|]. cbn [download]. split.
    + intros pre post H.
      rewrite (replace_first _ [] pre post _ H). cbn [app].
      now rewrite <- app_assoc.
    + intros H. now rewrite replace_absent.
  - intros u content Hf Ht. unfold Upload.downloadExcel, Upload.downloadText.
    rewrite Hf, Ht. eexists. split; [reflexivity|]. split; [reflexivity|].
    cbn [download]. split.
    + intros pre post H. now rewrite (replace_first _ _ pre post _ H).
    + intros H. now rewrite replace_absent.
Qed.

Lemma first_occurrence_twice :
  first_occurrence (lit ".pdf") (lit "a") (lit "b.pdf") (lit "a.pdfb.pdf").
Proof.
  split; [reflexivity|].
  intros [|c pre'] post' E; [discriminate|]. cbn. lia.
Qed.

Lemma download_name_witness :
  exists d,
    downloads (downloadText Scenario.twice_result) = [d] /\
    download d = lit "ab.pdf_extracted.txt".
Proof.
  assert (Hne : extractedText (state Scenario.twice_result) <> []) by discriminate.
  destruct (proj1 (download_name Scenario.twice_pdf) Scenario.twice_result eq_refl Hne)
    as (d & Hd & Hfirst & _).
  exists d. split; [exact Hd|].
  exact (Hfirst _ _ first_occurrence_twice).
Defined.

(** C10 as stated fails on [part_000]: for the file [a.pdfb.pdf],
    [window.downloadText] suggests [a_extracted.txtb.pdf], not
    [ab.pdf_extracted.txt]. *)
Lemma download_name_counterexample :
  Upload.currentFile (Scenario.uselected Scenario.twice_pdf)
  = Some Scenario.twice_pdf /\
  map download
    (Upload.downloads
       (Upload.downloadText (Scenario.uselected Scenario.twice_pdf)))
  = [lit "a_extracted.txtb.pdf"] /\
  lit "a_extracted.txtb.pdf" <> lit "ab.pdf_extracted.txt".
Proof.
  split; [vm_compute; reflexivity|].
  split; [vm_compute; reflexivity|].
  vm_compute. discriminate.
Qed.

(** * More of the code *)

Import Kept.

(** ** [script.js]: validation and the start of an extraction *)

Lemma validateFile_Valid_iff (c : Config) (f : File) :
  validateFile c f = Valid <->
  includes (allowedTypes c) (type f) = true /\ size f <= maxFileSize c.
Proof.
  unfold validateFile.
  destruct (includes (allowedTypes c) (type f)); cbn [negb].
  - destruct (Z.gtb_spec (size f) (maxFileSize c)).
    + split; [discriminate|lia].
    + split; [split; [reflexivity|lia]|reflexivity].
  - split; [discriminate|]. intros [E _]. discriminate.
Qed.

Lemma validated_iff (f : File) :
  Kept.validated f <->
  type f = lit "application/pdf" /\ size f <= 10 * 1024 * 1024.
Proof.
  unfold Kept.validated. rewrite validateFile_Valid_iff.
  cbn [allowedTypes maxFileSize defaultConfig].
  now rewrite includes_singleton.
Qed.

(** X1.  [validateFile] accepts a file exactly when its type is one of
    [allowedTypes] and its size is at most [maxFileSize]; a file of
    exactly the maximum size passes.  Under the configuration of [init]
    that is: type [application/pdf] and at most [10 * 1024 * 1024]
    bytes. *)
Theorem validateFile_accepts (c : Config) (f : File) :
  (validateFile c f = Valid <->
   includes (allowedTypes c) (type f) = true /\ size f <= maxFileSize c) /\
  (validateFile defaultConfig f = Valid <->
   type f = lit "application/pdf" /\ size f <= 10 * 1024 * 1024).
Proof.
  split; [apply validateFile_Valid_iff|apply validated_iff].
Qed.

(** X2.  A file that passes validation, handed to [handleFileSelection]
    while nothing is being processed, becomes the stored file and starts
    the one extraction: [isProcessing] is set, one attempt for that file
    is suspended with four steps to go, the error banner is hidden, the
    progress panel is up at 20 percent with the first message, the
    results panel and [extractedText] are left as they were, and a page
    with a file preview shows the name and the formatted size. *)
Theorem valid_selection_starts_extraction (a : App) (f : File) :
  validateFile (config a) f = Valid ->
  isProcessing (state a) = false ->
  state (handleFileSelection f a)
  = mkState true (Some f) (extractedText (state a)) (dragCounter (state a)) /\
  pending (handleFileSelection f a) = pending a ++ [mkTask f (tl steps)] /\
  errorContainer (elements (handleFileSelection f a))
  = assign (errorContainer (elements a)) false /\
  progressContainer (elements (handleFileSelection f a))
  = assign (progressContainer (elements a)) true /\
  progressBar (elements (handleFileSelection f a))
  = assign (progressBar (elements a)) 20 /\
  progressText (elements (handleFileSelection f a))
  = assign (progressText (elements a)) (lit "Reading PDF file...") /\
  resultsContainer (elements (handleFileSelection f a))
  = resultsContainer (elements a) /\
  (filePreview (elements a) <> None ->
   filePreview (elements (handleFileSelection f a)) = Some true /\
   fileName (elements (handleFileSelection f a))
   = assign (fileName (elements a)) (name f) /\
   fileSize (elements (handleFileSelection f a))
   = assign (fileSize (elements a)) (formatFileSize (size f))).
Proof.
  intros Hv Hp. unfold handleFileSelection. rewrite Hv.
  destruct a as [c [ip cf tx dc] e q n d]. cbn in Hp. subst ip.
  destruct e as [fi pc pb pt rc ec erc erm fp fn fs].
  unfold processFile, showFilePreview, showProgress, hideError,
    simulateProcessing.
  destruct fp, pc, pb; cbn; repeat split; try congruence;
    now destruct pt.
Qed.

(** X3.  An extraction started by [processFile] from a state with
    nothing in flight takes exactly five timers.  After [k] of them,
    [k] up to four, it is still processing, [extractedText] is what it
    was and the progress bar is at [20 * (k + 1)] percent; the fifth
    stores the generated text, clears [isProcessing], hides the progress
    panel and shows the results. *)
Theorem extraction_takes_five_timers (a : App) (f : File)
    (n1 n2 n3 n4 now : jsstring) :
  isProcessing (state a) = false ->
  pending a = [] ->
  (forall k, (k <= 4)%nat ->
     isProcessing
       (state (run (map Timer (firstn k [n1; n2; n3; n4])) (processFile f a)))
     = true /\
     extractedText
       (state (run (map Timer (firstn k [n1; n2; n3; n4])) (processFile f a)))
     = extractedText (state a) /\
     List.length
       (pending (run (map Timer (firstn k [n1; n2; n3; n4])) (processFile f a)))
     = 1%nat /\
     progressBar
       (elements
          (run (map Timer (firstn k [n1; n2; n3; n4])) (processFile f a)))
     = assign (progressBar (elements a)) (20 * (Z.of_nat k + 1))) /\
  state (run (map Timer [n1; n2; n3; n4; now]) (processFile f a))
  = mkState false (currentFile (state a))
      (generateMockExtractedText (name f) now) (dragCounter (state a)) /\
  pending (run (map Timer [n1; n2; n3; n4; now]) (processFile f a)) = [] /\
  progressContainer
    (elements (run (map Timer [n1; n2; n3; n4; now]) (processFile f a)))
  = assign (progressContainer (elements a)) false /\
  resultsContainer
    (elements (run (map Timer [n1; n2; n3; n4; now]) (processFile f a)))
  = assign (resultsContainer (elements a)) true /\
  (resultsContainer (elements a) <> None ->
   extractedContent
     (elements (run (map Timer [n1; n2; n3; n4; now]) (processFile f a)))
   = assign (extractedContent (elements a))
       (generateMockExtractedText (name f) now)).
Proof.
  intros Hp Hq.
  destruct a as [c [ip cf tx dc] e q n d]. cbn in Hp, Hq. subst ip q.
  destruct e as [fi pc pb pt rc ec erc erm fp fn fs].
  split.
  - intros k Hk.
    destruct k as [|[|[|[|[|k]]]]]; [| | | | |lia];
      destruct pc, pb; cbn -[generateMockExtractedText]; auto.
  - destruct pc, rc; cbn -[generateMockExtractedText];
      repeat split; congruence.
Qed.

(** ** [script.js]: what the reachable states keep *)

Ltac break_app a :=
  let c := fresh "c" in
  let ip := fresh "ip" in
  let cf := fresh "cf" in
  let tx := fresh "tx" in
  let dc := fresh "dc" in
  let q := fresh "q" in
  let n := fresh "n" in
  let d := fresh "d" in
  destruct a as [c [ip cf tx dc]
                   [fi pc pb pt rc ec erc erm fp fn fs] q n d].

Lemma handleFileSelection_files f a :
  config a = defaultConfig ->
  files_validated a /\ text_generated a ->
  files_validated (handleFileSelection f a) /\
  text_generated (handleFileSelection f a).
Proof.
  intros Hc [[Hcur Hpend] Htext]. unfold handleFileSelection.
  rewrite Hc. destruct (validateFile defaultConfig f) eqn:Hv.
  - break_app a. unfold files_validated, text_generated in *.
    unfold processFile, showFilePreview, showProgress, hideError,
      simulateProcessing.
    cbn in Hcur, Hpend, Htext.
    destruct ip, fp, pc; cbn; (split; [split|exact Htext]);
      try (intros f' [= <-]; exact Hv); try exact Hpend;
      apply Forall_app; split; auto.
  - break_app a. unfold files_validated, text_generated, showError in *.
    cbn in *. destruct erc; cbn; auto.
Qed.

Lemma clearFile_files a :
  files_validated a -> files_validated (clearFile a) /\
                       text_generated (clearFile a).
Proof.
  intros [_ Hpend]. split; [split|left; reflexivity].
  - discriminate.
  - exact Hpend.
Qed.

Lemma timer_files now a :
  files_validated a /\ text_generated a ->
  files_validated (timer now a) /\ text_generated (timer now a).
Proof.
  intros [[Hcur Hpend] Htext]. break_app a.
  unfold files_validated, text_generated, timer in *. cbn in *.
  destruct q as [|[tf [|s rest]] q']; [auto| |].
  - apply Forall_cons_iff in Hpend as [Hf Hq]. cbn in Hf.
    unfold processFile_resume, showResults.
    destruct rc; cbn -[generateMockExtractedText];
      (split; [split; assumption|]); right; exists tf, now; auto.
  - apply Forall_cons_iff in Hpend as [Hf Hq]. cbn in Hf.
    cbn. split; [split; [assumption|]|assumption].
    apply Forall_app. auto.
Qed.

Lemma handle_files ev a :
  config a = defaultConfig ->
  files_validated a /\ text_generated a ->
  files_validated (handle ev a) /\ text_generated (handle ev a).
Proof.
  intros Hc H. destruct ev as [| |f|f| | | | |now]; cbn [handle].
  - exact H.
  - exact H.
  - now apply handleFileSelection_files.
  - now apply handleFileSelection_files.
  - apply clearFile_files, H.
  - unfold downloadText. destruct (currentFile (state a)); [|exact H].
    destruct (falsy _); exact H.
  - unfold handleEscapeKey. destruct (negb _ && _); [|exact H].
    apply clearFile_files. exact (proj1 H).
  - apply (clearFile_files a), H.
  - now apply timer_files.
Qed.

Lemma reachable_files page a :
  reachable page a -> files_validated a /\ text_generated a.
Proof.
  induction 1 as [|a ev Hr IH].
  - split; [split; [discriminate|constructor]|left; reflexivity].
  - apply handle_files; [|exact IH]. now apply (reachable_config page).
Qed.

(** X4.  In every reachable state the stored file and the file of the
    extraction in flight have passed validation: their type is
    [application/pdf] and their size at most [10 * 1024 * 1024]. *)
Theorem stored_files_are_validated (page : Elements) (a : App) :
  reachable page a ->
  (forall f, currentFile (state a) = Some f ->
     type f = lit "application/pdf" /\ size f <= 10 * 1024 * 1024) /\
  (forall t, In t (pending a) ->
     type (file t) = lit "application/pdf" /\
     size (file t) <= 10 * 1024 * 1024).
Proof.
  intros Hr. destruct (reachable_files page a Hr) as [[Hcur Hpend] _].
  split.
  - intros f Hf. now apply validated_iff, Hcur.
  - intros t Ht. apply validated_iff.
    rewrite Forall_forall in Hpend. now apply Hpend.
Qed.

(** X5.  In every reachable state [extractedText] is empty or the text
    [generateMockExtractedText] makes from the name of a validated file
    and a date: nothing of a file but its name ever reaches it. *)
Theorem extractedText_is_generated (page : Elements) (a : App) :
  reachable page a ->
  extractedText (state a) = [] \/
  exists f now,
    type f = lit "application/pdf" /\ size f <= 10 * 1024 * 1024 /\
    extractedText (state a) = generateMockExtractedText (name f) now.
Proof.
  intros Hr. destruct (reachable_files page a Hr) as [_ [E|(f & now & Hv & E)]].
  - now left.
  - right. exists f, now. apply validated_iff in Hv. tauto.
Qed.

Lemma handle_progress_sync ev a : progress_sync a -> progress_sync (handle ev a).
Proof.
  unfold progress_sync. intros H.
  destruct ev as [| |f|f| | | | |now]; cbn [handle]; break_app a; cbn in H.
  - exact H.
  - exact H.
  - unfold handleFileSelection, showError, processFile, showFilePreview,
      showProgress, hideError, simulateProcessing.
    destruct (validateFile _ f); destruct ip, erc, fp, pc; cbn; auto.
  - unfold handleFileSelection, showError, processFile, showFilePreview,
      showProgress, hideError, simulateProcessing.
    destruct (validateFile _ f); destruct ip, erc, fp, pc; cbn; auto.
  - destruct pc; cbn; discriminate.
  - unfold downloadText. cbn. destruct cf; [|exact H].
    destruct (falsy tx); exact H.
  - unfold handleEscapeKey. cbn. destruct (negb ip && present cf); [|exact H].
    destruct pc; cbn; discriminate.
  - destruct pc; cbn; discriminate.
  - unfold timer. cbn. destruct q as [|[tf [|s rest]] q']; [exact H| |exact H].
    unfold processFile_resume, showResults.
    destruct pc, rc; cbn -[generateMockExtractedText]; discriminate.
Qed.

(** X6.  In every reachable state the progress panel is on display only
    while [isProcessing] is set: completion and [clearFile] both hide
    it. *)
Theorem progress_shown_only_while_processing (page : Elements) (a : App) :
  reachable page a ->
  shown (progressContainer (elements a)) = true ->
  isProcessing (state a) = true.
Proof.
  induction 1 as [|a ev Hr IH].
  - cbn. destruct (progressContainer page); discriminate.
  - now apply handle_progress_sync.
Qed.

Lemma handle_preview_sync page ev a :
  preview_sync page a -> preview_sync page (handle ev a).
Proof.
  unfold preview_sync. intros H.
  destruct (filePreview page) as [d0|].
  - destruct H as (Hfp & Hn & Hs & Hf).
    destruct ev as [| |f|f| | | | |now]; cbn [handle]; break_app a;
      cbn in Hfp, Hn, Hs, Hf.
    + cbn. auto.
    + cbn. auto.
    + subst fp.
      unfold handleFileSelection, showError, processFile, showFilePreview,
        showProgress, hideError, simulateProcessing.
      destruct (validateFile _ f); destruct ip, erc, pc; cbn;
        repeat split; auto;
        try (match goal with
             | E : cf = Some _ |- _ => destruct (Hf _ E); assumption
             end);
        try (intros f' [= <-]);
        try (destruct fn; destruct (fileName page); cbn in *; congruence);
        try (destruct fs; destruct (fileSize page); cbn in *; congruence).
    + subst fp.
      unfold handleFileSelection, showError, processFile, showFilePreview,
        showProgress, hideError, simulateProcessing.
      destruct (validateFile _ f); destruct ip, erc, pc; cbn;
        repeat split; auto;
        try (match goal with
             | E : cf = Some _ |- _ => destruct (Hf _ E); assumption
             end);
        try (intros f' [= <-]);
        try (destruct fn; destruct (fileName page); cbn in *; congruence);
        try (destruct fs; destruct (fileSize page); cbn in *; congruence).
    + subst fp. cbn. repeat split; auto; discriminate.
    + unfold downloadText. cbn. destruct cf; [|cbn; auto].
      destruct (falsy tx); cbn; auto.
    + unfold handleEscapeKey. cbn.
      destruct (negb ip && present cf); [|cbn; auto].
      subst fp. cbn. repeat split; auto; discriminate.
    + subst fp. cbn. repeat split; auto; discriminate.
    + unfold timer. cbn.
      destruct q as [|[tf [|s rest]] q']; [cbn; auto| |cbn; auto].
      unfold processFile_resume, showResults.
      destruct rc; cbn -[generateMockExtractedText]; auto.
  - destruct ev as [| |f|f| | | | |now]; cbn [handle]; break_app a;
      cbn in H; subst fp.
    + reflexivity.
    + reflexivity.
    + unfold handleFileSelection, showError, processFile, showFilePreview,
        showProgress, hideError, simulateProcessing.
      destruct (validateFile _ f); destruct ip, erc, pc; reflexivity.
    + unfold handleFileSelection, showError, processFile, showFilePreview,
        showProgress, hideError, simulateProcessing.
      destruct (validateFile _ f); destruct ip, erc, pc; reflexivity.
    + reflexivity.
    + unfold downloadText. cbn. destruct cf; [|reflexivity].
      destruct (falsy tx); reflexivity.
    + unfold handleEscapeKey. cbn.
      destruct (negb ip && present cf); reflexivity.
    + reflexivity.
    + unfold timer. cbn.
      destruct q as [|[tf [|s rest]] q']; [reflexivity| |reflexivity].
      unfold processFile_resume, showResults.
      destruct rc; reflexivity.
Qed.

Lemma reachable_preview_sync page a : reachable page a -> preview_sync page a.
Proof.
  induction 1 as [|a ev Hr IH]; [|now apply handle_preview_sync].
  unfold preview_sync. cbn.
  destruct (filePreview page); cbn; [|reflexivity].
  repeat split; try (now destruct (fileName page));
    try (now destruct (fileSize page)); discriminate.
Qed.

(** X7.  On a page that has the file preview, in every reachable state
    the preview is on display exactly when a file is stored, and the
    name and size elements of the page then show the name and the
    formatted size of the stored file. *)
Theorem preview_shows_stored_file (page : Elements) (a : App) :
  reachable page a ->
  present (filePreview page) = true ->
  shown (filePreview (elements a)) = present (currentFile (state a)) /\
  forall f, currentFile (state a) = Some f ->
    fileName (elements a) = assign (fileName page) (name f) /\
    fileSize (elements a) = assign (fileSize page) (formatFileSize (size f)).
Proof.
  intros Hr Hp. apply reachable_preview_sync in Hr. unfold preview_sync in Hr.
  destruct (filePreview page); [|discriminate].
  destruct Hr as (Hfp & _ & _ & Hf). rewrite Hfp. split; [|exact Hf].
  cbn. now destruct (present (currentFile (state a))).
Qed.

(** ** [script.js]: clearing, dragging, downloading *)

(** X8.  [reset] of the public API does what [clearFile] does, clearing
    twice is clearing once, and the escape key changes nothing after a
    clear. *)
Theorem reset_is_clearFile (a : App) :
  reset a = clearFile a /\
  clearFile (clearFile a) = clearFile a /\
  handleEscapeKey (clearFile a) = clearFile a.
Proof.
  break_app a. unfold reset, handleEscapeKey.
  destruct ip, fi, pc, rc, erc, fp; repeat split.
Qed.

Lemma handle_dragCounter ev a :
  match ev with
  | DragEnter => dragCounter (state (handle ev a)) = dragCounter (state a) + 1
  | DragLeave => dragCounter (state (handle ev a)) = dragCounter (state a) - 1
  | Drop _ => dragCounter (state (handle ev a)) = 0
  | _ => dragCounter (state (handle ev a)) = dragCounter (state a)
  end.
Proof.
  destruct ev as [| |f|f| | | | |now]; cbn [handle]; try reflexivity.
  - now destruct (handleFileSelection_frame f (withState (setDragCounter 0) a))
      as (_ & _ & -> & _).
  - now destruct (handleFileSelection_frame f a) as (_ & _ & -> & _).
  - unfold downloadText. destruct (currentFile (state a)); [|reflexivity].
    now destruct (falsy _).
  - unfold handleEscapeKey. now destruct (negb _ && _).
  - destruct (timer_cases now a)
      as [[_ ->]|[(t & s & rest & q & _ & _ & ->)|(t & q & _ & _ & ->)]];
      try reflexivity.
    now destruct (processFile_resume_frame (file t) now
                    (withPending (fun _ => q) a)) as (_ & -> & _).
Qed.

(** X9.  On the drop zone the class [drag-over] follows [dragCounter]:
    if the counter is not negative and the class is there exactly when
    the counter is positive, this still holds after any event, provided
    a [dragleave] only comes while an enter is outstanding. *)
Theorem highlight_follows_counter (ev : Event) (z : Drag.Zone) :
  Drag.balanced z ->
  (ev = DragLeave -> 0 < dragCounter (state (Drag.inst z))) ->
  Drag.balanced (Drag.listen ev z).
Proof.
  unfold Drag.balanced. intros [Hge Hiff] Hleave.
  pose proof (handle_dragCounter ev (Drag.inst z)) as Hd.
  destruct ev as [| |f|f| | | | |now];
    cbn [Drag.listen Drag.dragenter Drag.dragleave Drag.drop
         Drag.inst Drag.dragOver];
    try (rewrite Hd; split; [exact Hge|exact Hiff]).
  - rewrite Hd. split; [lia|]. split; [lia|reflexivity].
  - specialize (Hleave eq_refl). rewrite Hd.
    destruct (Z.eqb_spec (dragCounter (state (Drag.inst z)) - 1) 0).
    + split; [lia|]. split; [discriminate|lia].
    + split; [lia|]. rewrite Hiff. lia.
  - rewrite Hd. split; [lia|]. split; [discriminate|lia].
Qed.

Lemma handle_downloads ev a :
  ev <> ClickDownload -> downloads (handle ev a) = downloads a.
Proof.
  intros Hev. destruct ev as [| |f|f| | | | |now]; cbn [handle];
    try reflexivity; try congruence.
  - now destruct (handleFileSelection_frame f (withState (setDragCounter 0) a))
      as (_ & _ & _ & _ & ->).
  - now destruct (handleFileSelection_frame f a) as (_ & _ & _ & _ & ->).
  - unfold handleEscapeKey. now destruct (negb _ && _).
  - unfold timer. destruct (pending a) as [|[tf [|s rest]] q']; try reflexivity.
    unfold processFile_resume, showResults. cbn -[generateMockExtractedText].
    now destruct (resultsContainer _).
Qed.

Lemma run_downloads (evs : list Event) : forall a,
  Forall (fun ev => ev <> ClickDownload) evs ->
  downloads (run evs a) = downloads a.
Proof.
  induction evs as [|ev evs IH]; intros a H; [reflexivity|].
  apply Forall_cons_iff in H as [Hev Hrest]. cbn [run].
  rewrite IH by exact Hrest. now apply handle_downloads.
Qed.

(** X10.  Nothing but a click on the download button starts a download:
    over any sequence of other events the list of downloads stays as it
    is. *)
Theorem no_download_without_click (evs : list Event) (a : App) :
  Forall (fun ev => ev <> ClickDownload) evs ->
  downloads (run evs a) = downloads a /\
  downloads (run (evs ++ [ClickDownload]) a)
  = downloads (downloadText (run evs a)).
Proof.
  intros H. split; [now apply run_downloads|].
  now rewrite run_app.
Qed.

Lemma handle_steps_left ev a :
  Forall (fun t => (List.length (remaining t) <= 4)%nat) (pending a) ->
  Forall (fun t => (List.length (remaining t) <= 4)%nat)
    (pending (handle ev a)).
Proof.
  intros H. destruct ev as [| |f|f| | | | |now]; cbn [handle];
    try exact H.
  - destruct (handleFileSelection_cases f (withState (setDragCounter 0) a))
      as [(msg & _ & ->)|[_ ->]].
    + now destruct (showError_frame msg (withState (setDragCounter 0) a))
        as (_ & _ & -> & _).
    + set (b := showFilePreview f _).
      assert (Hb : pending b = pending a).
      { subst b. now destruct (showFilePreview_frame f
          (withState (setCurrentFile (Some f))
             (hideError (withState (setDragCounter 0) a))))
          as (_ & _ & -> & _). }
      destruct (isProcessing (state b)) eqn:E.
      * rewrite processFile_guard by exact E. now rewrite Hb.
      * destruct (processFile_start f b E) as (_ & _ & -> & _).
        rewrite Hb. apply Forall_app. split; [exact H|].
        repeat constructor.
  - destruct (handleFileSelection_cases f a) as [(msg & _ & ->)|[_ ->]].
    + now destruct (showError_frame msg a) as (_ & _ & -> & _).
    + set (b := showFilePreview f _).
      assert (Hb : pending b = pending a).
      { subst b. now destruct (showFilePreview_frame f
          (withState (setCurrentFile (Some f)) (hideError a)))
          as (_ & _ & -> & _). }
      destruct (isProcessing (state b)) eqn:E.
      * rewrite processFile_guard by exact E. now rewrite Hb.
      * destruct (processFile_start f b E) as (_ & _ & -> & _).
        rewrite Hb. apply Forall_app. split; [exact H|].
        repeat constructor.
  - unfold downloadText. destruct (currentFile (state a)); [|exact H].
    destruct (falsy _); exact H.
  - unfold handleEscapeKey. destruct (negb _ && _); exact H.
  - destruct (timer_cases now a)
      as [[_ ->]|[(t & s & rest & q & Hp & Hs & ->)|(t & q & Hp & _ & ->)]];
      [exact H| |].
    + rewrite Hp in H. apply Forall_cons_iff in H as [Ht Hq].
      cbn. apply Forall_app. split; [exact Hq|].
      constructor; [|constructor]. rewrite Hs in Ht. cbn in *. lia.
    + destruct (processFile_resume_frame (file t) now
                  (withPending (fun _ => q) a)) as (_ & _ & -> & _).
      rewrite Hp in H. apply Forall_cons_iff in H as [_ Hq]. exact Hq.
Qed.

Lemma reachable_steps_left page a :
  reachable page a ->
  Forall (fun t => (List.length (remaining t) <= 4)%nat) (pending a).
Proof.
  induction 1 as [|a ev Hr IH]; [constructor|].
  now apply handle_steps_left.
Qed.

(** X24.  An extraction cannot get stuck: in every reachable state with
    [isProcessing] set exactly one attempt is in flight, with at most
    four steps to go, and when its timers have fired, at most five,
    [isProcessing] is clear and [extractedText] is the text generated
    for the file the attempt was started with; the stored file is not
    touched. *)
Theorem extraction_always_completes (page : Elements) (a : App) :
  reachable page a ->
  isProcessing (state a) = true ->
  exists t, pending a = [t] /\
    (List.length (remaining t) <= 4)%nat /\
    forall nows now,
      List.length nows = List.length (remaining t) ->
      isProcessing (state (run (map Timer (nows ++ [now])) a)) = false /\
      extractedText (state (run (map Timer (nows ++ [now])) a))
      = generateMockExtractedText (name (file t)) now /\
      pending (run (map Timer (nows ++ [now])) a) = [] /\
      currentFile (state (run (map Timer (nows ++ [now])) a))
      = currentFile (state a).
Proof.
  intros Hr Hproc.
  pose proof (reachable_steps_left page a Hr) as Hsteps.
  apply reachable_one_flight in Hr. unfold one_flight in Hr.
  destruct (pending a) as [|t [|t' q]] eqn:Hp; [congruence| |contradiction].
  exists t. split; [reflexivity|].
  apply Forall_cons_iff in Hsteps as [Hle _]. split; [exact Hle|].
  intros nows now Hlen. rewrite map_app, run_app.
  destruct (run_ticks nows a t Hp Hlen) as (H1 & H2 & _).
  cbn [map run handle]. unfold timer. rewrite H1. cbn [remaining file].
  destruct (processFile_resume_frame (file t) now
              (withPending (fun _ => [])
                 (run (map Timer nows) a))) as (_ & Hs & Hq & _).
  rewrite Hs, Hq. cbn [withPending state pending isProcessing extractedText
                       currentFile]. rewrite H2. auto.
Qed.

(** ** [formatFileSize] *)

Lemma hundredths_whole (n : Z) : 0 <= n -> hundredths (100 * n) = digits n.
Proof.
  intros Hn. unfold hundredths.
  replace (100 * n mod 100) with 0 by (symmetry; rewrite Z.mul_comm; apply Z_mod_mult).
  cbn [Z.eqb]. f_equal. rewrite Z.mul_comm. apply Z_div_mult. lia.
Qed.

Lemma log1024_scaled (n i : Z) :
  1 <= n < 1024 -> 0 <= i -> Z.log2 (n * 1024 ^ i) / 10 = i.
Proof.
  intros Hn Hi.
  replace (1024 ^ i) with (2 ^ (10 * i)).
  2:{ change 1024 with (2 ^ 10). rewrite <- Z.pow_mul_r by lia. reflexivity. }
  rewrite Z.log2_mul_pow2 by lia.
  assert (0 <= Z.log2 n < 10).
  { split; [apply Z.log2_nonneg|]. apply Z.log2_lt_pow2; [lia|]. cbn. lia. }
  Z.div_mod_to_equations. lia.
Qed.

(** X11.  A whole number [n] of units, [1 <= n < 1024], prints as that
    number and the unit, without decimals: [formatFileSize] of
    [n * 1024 ^ i] is [n] followed by [Bytes], [KB], [MB] or [GB] for
    [i] from 0 to 3. *)
Theorem formatFileSize_whole_units (n i : Z) :
  1 <= n < 1024 -> 0 <= i <= 3 ->
  formatFileSize (n * 1024 ^ i)
  = digits n ++ lit " " ++ nth (Z.to_nat i) sizes [].
Proof.
  intros Hn Hi. unfold formatFileSize.
  assert (Hpos : 0 < 1024 ^ i) by (apply Z.pow_pos_nonneg; lia).
  assert (Hb : 0 < n * 1024 ^ i) by nia.
  destruct (Z.eqb_spec (n * 1024 ^ i) 0); [lia|].
  destruct (Z.ltb_spec (n * 1024 ^ i) 0); [lia|].
  cbv zeta. rewrite log1024_scaled by lia.
  replace ((200 * (n * 1024 ^ i) + 1024 ^ i) / (2 * 1024 ^ i)) with (100 * n).
  2:{ apply Z.div_unique_pos with (r := 1024 ^ i); [lia|nia]. }
  rewrite hundredths_whole by lia.
  do 2 f_equal.
  assert (Hc : i = 0 \/ i = 1 \/ i = 2 \/ i = 3) by lia.
  destruct Hc as [->|[->|[->| ->]]]; reflexivity.
Qed.

Lemma pow1024 (i : Z) : 0 <= i -> 1024 ^ i = 2 ^ (10 * i).
Proof.
  intros Hi. change 1024 with (2 ^ 10). now rewrite <- Z.pow_mul_r by lia.
Qed.

Lemma log1024_range (b i : Z) :
  0 <= i -> 1024 ^ i <= b < 1024 ^ (i + 1) -> Z.log2 b / 10 = i.
Proof.
  intros Hi [Hlo Hhi]. rewrite !pow1024 in * by lia.
  assert (0 < 2 ^ (10 * i)) by (apply Z.pow_pos_nonneg; lia).
  assert (10 * i <= Z.log2 b).
  { rewrite <- (Z.log2_pow2 (10 * i)) by lia. now apply Z.log2_le_mono. }
  assert (Z.log2 b < 10 * (i + 1)) by (apply Z.log2_lt_pow2; lia).
  Z.div_mod_to_equations. lia.
Qed.

(** X12.  From [1024 ^ 4] bytes on, [sizes] has no unit left: the text
    [formatFileSize] returns ends in [undefined].  The sizes are those
    from [2 ^ 40] up to [2 ^ 49], whose logarithm to the base 1024 lies
    in [4, 4.9] and is floored to 4 in floating point as well. *)
Theorem formatFileSize_past_GB (bytes : Z) :
  1024 ^ 4 <= bytes < 2 ^ 49 ->
  exists h, 100 <= h /\
    formatFileSize bytes = hundredths h ++ lit " undefined".
Proof.
  intros [Hlo Hhi]. unfold formatFileSize.
  destruct (Z.eqb_spec bytes 0); [lia|].
  destruct (Z.ltb_spec bytes 0); [lia|]. cbv zeta.
  assert (H40 : 40 <= Z.log2 bytes).
  { change 40 with (Z.log2 (2 ^ 40)). apply Z.log2_le_mono.
    change (2 ^ 40) with (1024 ^ 4). exact Hlo. }
  assert (H49 : Z.log2 bytes < 49) by (apply Z.log2_lt_pow2; lia).
  assert (Hi : Z.log2 bytes / 10 = 4) by (Z.div_mod_to_equations; lia).
  rewrite Hi.
  exists ((200 * bytes + 1024 ^ 4) / (2 * 1024 ^ 4)). split; [|reflexivity].
  apply Z.div_le_lower_bound; lia.
Qed.

(** X13.  [formatFileSize] never carries into the next unit: a size
    less than 0.005 units below [1024 ^ (i + 1)] prints as [1024] of the
    unit [i], not as [1] of the next. *)
Theorem formatFileSize_never_carries (bytes i : Z) :
  1 <= i <= 3 ->
  204799 * 1024 ^ i <= 200 * bytes ->
  bytes < 1024 ^ (i + 1) ->
  formatFileSize bytes = lit "1024 " ++ nth (Z.to_nat i) sizes [].
Proof.
  intros Hi Hlo Hhi. unfold formatFileSize.
  assert (Hpos : 0 < 1024 ^ i) by (apply Z.pow_pos_nonneg; lia).
  assert (Hk : 1024 ^ (i + 1) = 1024 * 1024 ^ i).
  { rewrite Z.pow_add_r by lia. lia. }
  destruct (Z.eqb_spec bytes 0); [lia|].
  destruct (Z.ltb_spec bytes 0); [lia|]. cbv zeta.
  rewrite (log1024_range bytes i) by lia.
  replace ((200 * bytes + 1024 ^ i) / (2 * 1024 ^ i)) with 102400.
  2:{ apply Z.div_unique_pos
        with (r := 200 * bytes + 1024 ^ i - 204800 * 1024 ^ i); lia. }
  assert (Hc : i = 0 \/ i = 1 \/ i = 2 \/ i = 3) by lia.
  destruct Hc as [->|[->|[->| ->]]]; reflexivity.
Qed.

(** ** [copyToClipboard] and [validateForm] *)

(** X14.  One copy, with a copy button on the page and nothing else
    pending: when [writeText] is fulfilled the clipboard holds
    [extractedText], the success notification is shown and the button
    reads [Copied!] with the class [success]; the two-second timer then
    puts the label it had back and removes the class. *)
Theorem copy_restores_label (d : Clipboard.Desk) (b : Clipboard.Button) :
  extractedText (state (Clipboard.inst d)) <> [] ->
  Clipboard.copyBtn d = Some b ->
  Clipboard.writes d = [] ->
  Clipboard.restores d = [] ->
  Clipboard.copyBtn (Clipboard.settled true (Clipboard.copyToClipboard d))
  = Some (Clipboard.mkButton (lit "Copied!") true) /\
  Clipboard.clipboard (Clipboard.settled true (Clipboard.copyToClipboard d))
  = Some (extractedText (state (Clipboard.inst d))) /\
  notification
    (Clipboard.inst (Clipboard.settled true (Clipboard.copyToClipboard d)))
  = Some (lit "Text copied to clipboard!", lit "success") /\
  Clipboard.copyBtn
    (Clipboard.restore
       (Clipboard.settled true (Clipboard.copyToClipboard d)))
  = Some (Clipboard.mkButton (Clipboard.label b) false) /\
  Clipboard.restores
    (Clipboard.restore
       (Clipboard.settled true (Clipboard.copyToClipboard d)))
  = [].
Proof.
  intros Ht Hb Hw Hr. destruct d as [a cb cl ws rs]. cbn in *. subst.
  unfold Clipboard.copyToClipboard. cbn.
  destruct (extractedText (state a)); [contradiction|]. cbn. auto.
Qed.

(** X15.  A second copy that settles before the first two-second timer
    is due takes [Copied!] for the original label: when both timers have
    run the button still reads [Copied!], whether the second copy was
    started before or after the first one settled. *)
Theorem second_copy_loses_label (d : Clipboard.Desk) (b : Clipboard.Button) :
  extractedText (state (Clipboard.inst d)) <> [] ->
  Clipboard.copyBtn d = Some b ->
  Clipboard.writes d = [] ->
  Clipboard.restores d = [] ->
  Clipboard.copyBtn
    (Clipboard.restore
       (Clipboard.restore
          (Clipboard.settled true
             (Clipboard.copyToClipboard
                (Clipboard.settled true (Clipboard.copyToClipboard d))))))
  = Some (Clipboard.mkButton (lit "Copied!") false) /\
  Clipboard.copyBtn
    (Clipboard.restore
       (Clipboard.restore
          (Clipboard.settled true
             (Clipboard.settled true
                (Clipboard.copyToClipboard (Clipboard.copyToClipboard d))))))
  = Some (Clipboard.mkButton (lit "Copied!") false).
Proof.
  intros Ht Hb Hw Hr. destruct d as [a cb cl ws rs]. cbn in *. subst.
  unfold Clipboard.copyToClipboard. cbn.
  destruct (extractedText (state a)) eqn:E; [contradiction|]. cbn.
  rewrite E. cbn. auto.
Qed.

Lemma trimStart_nil (s : jsstring) :
  Forms.trimStart s = [] <-> forallb Forms.whitespace s = true.
Proof.
  induction s as [|c s IH]; cbn; [tauto|].
  destruct (Forms.whitespace c); cbn; [exact IH|].
  split; discriminate.
Qed.

Lemma trim_falsy (s : jsstring) :
  falsy (Forms.trim s) = forallb Forms.whitespace s.
Proof.
  unfold Forms.trim, Forms.trimEnd.
  induction s as [|c s IH]; [reflexivity|].
  cbn [Forms.trimStart forallb].
  destruct (Forms.whitespace c) eqn:Hc; cbn [andb]; [exact IH|].
  destruct (Forms.trimStart (rev (c :: s))) as [|x r] eqn:E.
  - apply trimStart_nil in E. rewrite forallb_forall in E.
    rewrite (E c) in Hc; [discriminate|].
    apply in_rev. rewrite rev_involutive. now left.
  - destruct (rev (x :: r)) eqn:E'; [|reflexivity].
    apply (f_equal (@rev Z)) in E'. rewrite rev_involutive in E'.
    discriminate.
Qed.

Lemma validateEach_spec (inputs : list Forms.Input) (isValid : bool) :
  Forms.validateEach inputs isValid
  = (map (fun i => Forms.mkInput (Forms.value i)
                     (forallb Forms.whitespace (Forms.value i))) inputs,
     isValid
     && forallb (fun i => negb (forallb Forms.whitespace (Forms.value i)))
          inputs).
Proof.
  revert isValid. induction inputs as [|i rest IH]; intros isValid.
  - cbn. now rewrite andb_true_r.
  - cbn [Forms.validateEach map forallb]. rewrite trim_falsy.
    destruct (forallb Forms.whitespace (Forms.value i)); rewrite IH; cbn.
    + now rewrite andb_false_r.
    + reflexivity.
Qed.

(** X16.  [validateForm] returns [true] exactly when no required field
    is empty or all white space; it leaves the class [error] on exactly
    those fields, whatever they carried before, so a second run changes
    nothing; and the submit listener prevents the submission exactly when
    there is such a field. *)
Theorem validateForm_marks_blank_fields (inputs : list Forms.Input) :
  snd (Forms.validateForm inputs)
  = forallb (fun i => negb (forallb Forms.whitespace (Forms.value i))) inputs /\
  fst (Forms.validateForm inputs)
  = map (fun i => Forms.mkInput (Forms.value i)
                    (forallb Forms.whitespace (Forms.value i))) inputs /\
  Forms.validateForm (fst (Forms.validateForm inputs))
  = Forms.validateForm inputs /\
  (Forms.submitPrevented inputs = true <->
   exists i, In i inputs /\ forallb Forms.whitespace (Forms.value i) = true).
Proof.
  unfold Forms.submitPrevented, Forms.validateForm.
  rewrite !validateEach_spec. cbn [fst snd andb].
  split; [reflexivity|]. split; [reflexivity|]. split.
  - rewrite map_map. cbn [Forms.value]. f_equal.
    induction inputs as [|i rest IH]; [reflexivity|].
    cbn [map forallb Forms.value]. now rewrite IH.
  - rewrite negb_true_iff. split.
    + intros H. induction inputs as [|i rest IH]; [discriminate|].
      cbn in H. apply andb_false_iff in H as [H|H].
      * exists i. split; [now left|]. now apply negb_false_iff.
      * destruct (IH H) as (j & Hj & Hb). exists j. split; [now right|exact Hb].
    + intros (i & Hi & Hb).
      destruct (forallb _ inputs) eqn:E; [|reflexivity].
      rewrite forallb_forall in E. specialize (E i Hi).
      rewrite Hb in E. discriminate.
Qed.

(** ** [part_000] *)

Lemma upload_accepts (f : File) (u : Upload.App) :
  Page.accepted f ->
  Upload.handleFileSelect f u
  = Upload.showOptionsCard
      (Upload.showFilePreview f (Upload.setCurrentFile (Some f) u)).
Proof.
  intros [Ht Hs]. unfold Upload.handleFileSelect.
  rewrite (proj2 (streq_eq _ _) Ht). cbn [negb].
  destruct (Z.gtb_spec (size f) (50 * 1024 * 1024)); [lia|reflexivity].
Qed.

Lemma upload_rejects (f : File) (u : Upload.App) :
  ~ Page.accepted f ->
  Upload.handleFileSelect f u
  = Upload.alert (if streq (type f) (lit "application/pdf")
                  then lit "File size must be less than 50MB"
                  else lit "Please select a PDF file") u.
Proof.
  intros Hn. unfold Upload.handleFileSelect.
  destruct (streq (type f) (lit "application/pdf")) eqn:E; cbn [negb];
    [|reflexivity].
  destruct (Z.gtb_spec (size f) (50 * 1024 * 1024)); [reflexivity|].
  exfalso. apply Hn. split; [now apply streq_eq|lia].
Qed.

(** X17.  [handleFileSelect] of [part_000] stores a file of type
    [application/pdf] of at most [50 * 1024 * 1024] bytes (the limit
    itself passes), shows the preview with its name and formatted size
    and the options card, and alerts nothing; any other file only adds
    one alert: the stored file and the page stay as they were. *)
Theorem handleFileSelect_accepts (f : File) (u : Upload.App) :
  (Page.accepted f ->
   Upload.currentFile (Upload.handleFileSelect f u) = Some f /\
   Upload.alerts (Upload.handleFileSelect f u) = Upload.alerts u /\
   Upload.filePreview (Upload.page (Upload.handleFileSelect f u))
   = Upload.assign (Upload.filePreview (Upload.page u)) Upload.DisplayBlock /\
   Upload.optionsCard (Upload.page (Upload.handleFileSelect f u))
   = Upload.assign (Upload.optionsCard (Upload.page u)) Upload.DisplayBlock /\
   Upload.fileName (Upload.page (Upload.handleFileSelect f u))
   = Upload.assign (Upload.fileName (Upload.page u)) (name f) /\
   Upload.fileSize (Upload.page (Upload.handleFileSelect f u))
   = Upload.assign (Upload.fileSize (Upload.page u))
       (formatFileSize (size f))) /\
  (~ Page.accepted f ->
   Upload.currentFile (Upload.handleFileSelect f u) = Upload.currentFile u /\
   Upload.page (Upload.handleFileSelect f u) = Upload.page u /\
   exists msg, msg <> [] /\
     Upload.alerts (Upload.handleFileSelect f u) = Upload.alerts u ++ [msg]).
Proof.
  split.
  - intros H. rewrite (upload_accepts f u H). repeat split.
  - intros H. rewrite (upload_rejects f u H). repeat split.
    eexists. split; [|reflexivity].
    destruct (streq _ _); discriminate.
Qed.

(** X18.  Dropping files on the upload area is choosing the first of
    them: the others are ignored, and the type test of the [drop]
    listener changes nothing that [handleFileSelect] would not do.  An
    empty drop alerts. *)
Theorem drop_is_select_first (f : File) (rest : list File) (u : Upload.App) :
  Upload.drop (f :: rest) u = Upload.handleFileSelect f u /\
  Upload.drop [] u = Upload.alert (lit "Please select a PDF file") u.
Proof.
  split; [|reflexivity]. unfold Upload.drop, Upload.handleFileSelect.
  now destruct (streq (type f) (lit "application/pdf")).
Qed.

(** X19.  With a file stored and no timer pending, a click on the
    extract button puts up the overlay and sets one timer; when it fires
    the overlay is gone, the upload and options cards are hidden, the
    results card is shown and the text area holds the sample text for
    the stored file, as a text area gives it back (line breaks as LF). *)
Theorem extract_shows_text_of_current_file
    (u : Upload.App) (f : File) (now : jsstring) :
  Upload.currentFile u = Some f ->
  Upload.timers u = 0%nat ->
  Upload.timers (Upload.clickExtract u) = 1%nat /\
  Upload.loadingOverlay (Upload.page (Upload.clickExtract u))
  = Upload.assign (Upload.loadingOverlay (Upload.page u)) Upload.DisplayFlex /\
  Upload.timers (Upload.timer now (Upload.clickExtract u)) = 0%nat /\
  Upload.currentFile (Upload.timer now (Upload.clickExtract u)) = Some f /\
  Upload.loadingOverlay (Upload.page (Upload.timer now (Upload.clickExtract u)))
  = Upload.assign (Upload.loadingOverlay (Upload.page u)) Upload.DisplayNone /\
  Upload.uploadCard (Upload.page (Upload.timer now (Upload.clickExtract u)))
  = Upload.assign (Upload.uploadCard (Upload.page u)) Upload.DisplayNone /\
  Upload.optionsCard (Upload.page (Upload.timer now (Upload.clickExtract u)))
  = Upload.assign (Upload.optionsCard (Upload.page u)) Upload.DisplayNone /\
  Upload.resultsCard (Upload.page (Upload.timer now (Upload.clickExtract u)))
  = Upload.assign (Upload.resultsCard (Upload.page u)) Upload.DisplayBlock /\
  Upload.extractedText (Upload.page (Upload.timer now (Upload.clickExtract u)))
  = Upload.assign (Upload.extractedText (Upload.page u))
      (Upload.normalizeNewlines (Upload.sampleText f now)).
Proof.
  intros Hf Ht. destruct u as [cf [fi fp uc oc rc lo fn fs et] t al dl].
  cbn in Hf, Ht. subst cf t. unfold Upload.clickExtract, Upload.timer.
  cbn -[Upload.sampleText Upload.normalizeNewlines]. unfold Upload.showResults.
  destruct lo, et; cbn -[Upload.sampleText Upload.normalizeNewlines];
    repeat split.
Qed.

(** X20.  [window.reset] does not cancel the timer of [extractPDF]:
    when it fires after a reset, the results card is shown again and the
    upload card hidden, with no current file; the text area keeps what
    it held, and [window.downloadText] does nothing. *)
Theorem timer_after_reset_shows_old_text
    (u : Upload.App) (n : nat) (now : jsstring) :
  Upload.timers u = S n ->
  Upload.currentFile (Upload.timer now (Upload.reset u)) = None /\
  Upload.timers (Upload.timer now (Upload.reset u)) = n /\
  Upload.resultsCard (Upload.page (Upload.timer now (Upload.reset u)))
  = Upload.assign (Upload.resultsCard (Upload.page u)) Upload.DisplayBlock /\
  Upload.uploadCard (Upload.page (Upload.timer now (Upload.reset u)))
  = Upload.assign (Upload.uploadCard (Upload.page u)) Upload.DisplayNone /\
  Upload.extractedText (Upload.page (Upload.timer now (Upload.reset u)))
  = Upload.extractedText (Upload.page u) /\
  Upload.downloadText (Upload.timer now (Upload.reset u))
  = Upload.timer now (Upload.reset u).
Proof.
  intros Ht. destruct u as [cf [fi fp uc oc rc lo fn fs et] t al dl].
  cbn in Ht. subst t. unfold Upload.timer, Upload.showResults.
  destruct uc, rc, et; cbn; repeat split.
Qed.

(** X21.  [window.reset] absorbs [window.removeFile] and itself,
    [removeFile] is idempotent, neither touches the text area, and after
    either [window.downloadText] does nothing. *)
Theorem reset_absorbs (u : Upload.App) :
  Upload.reset (Upload.reset u) = Upload.reset u /\
  Upload.reset (Upload.removeFile u) = Upload.reset u /\
  Upload.removeFile (Upload.reset u) = Upload.reset u /\
  Upload.removeFile (Upload.removeFile u) = Upload.removeFile u /\
  Upload.downloadText (Upload.reset u) = Upload.reset u /\
  Upload.downloadText (Upload.removeFile u) = Upload.removeFile u /\
  Upload.extractedText (Upload.page (Upload.reset u))
  = Upload.extractedText (Upload.page u).
Proof.
  destruct u as [cf [fi fp uc oc rc lo fn fs et] t al dl].
  destruct fi, fp, uc, oc, rc; repeat split.
Qed.

(** X23.  [window.togglePreview] settles on two heights: toggling three
    times is toggling once, and toggling twice gives the height back
    exactly when that was [400px] or [150px]. *)
Theorem togglePreview_settles (h : jsstring) :
  Page.togglePreview (Page.togglePreview (Page.togglePreview h))
  = Page.togglePreview h /\
  (Page.togglePreview (Page.togglePreview h) = h <->
   h = lit "400px" \/ h = lit "150px").
Proof.
  unfold Page.togglePreview.
  destruct (streq h (lit "400px")) eqn:E.
  - apply streq_eq in E. subst h. split; [reflexivity|].
    split; [now left|reflexivity].
  - cbn. split; [reflexivity|]. split.
    + intros <-. now right.
    + intros [->| ->]; [discriminate E|reflexivity].
Qed.

Lemma upload_select_kept (P : Upload.App -> Prop) (f : File) (u : Upload.App) :
  (forall msg, P (Upload.alert msg u)) ->
  (Page.accepted f ->
   P (Upload.showOptionsCard
        (Upload.showFilePreview f (Upload.setCurrentFile (Some f) u)))) ->
  P (Upload.handleFileSelect f u).
Proof.
  intros Halert Hacc. unfold Upload.handleFileSelect.
  destruct (streq (type f) (lit "application/pdf")) eqn:E; cbn [negb];
    [|apply Halert].
  destruct (Z.gtb_spec (size f) (50 * 1024 * 1024)); [apply Halert|].
  apply Hacc. split; [now apply streq_eq|lia].
Qed.

Lemma upload_handle_kept (p : Upload.Page) (ev : Page.Event) (u : Upload.App) :
  ((forall f, Upload.currentFile u = Some f -> Page.accepted f) /\
   (Upload.extractedText (Upload.page u) = Upload.extractedText p \/
    exists f now, Page.accepted f /\
      Upload.extractedText (Upload.page u)
      = Some (Upload.normalizeNewlines (Upload.sampleText f now)))) ->
  (forall f, Upload.currentFile (Page.handle ev u) = Some f ->
     Page.accepted f) /\
  (Upload.extractedText (Upload.page (Page.handle ev u))
   = Upload.extractedText p \/
   exists f now, Page.accepted f /\
     Upload.extractedText (Upload.page (Page.handle ev u))
     = Some (Upload.normalizeNewlines (Upload.sampleText f now))).
Proof.
  intros [Hcur Htext].
  destruct ev as [f|files| | | | | |now]; cbn [Page.handle].
  - apply upload_select_kept.
    + intros msg. split; assumption.
    + intros Hacc. split; [|exact Htext]. now intros f' [= <-].
  - destruct files as [|f rest]; [split; assumption|]. cbn [Upload.drop].
    destruct (streq (type f) (lit "application/pdf")); [|split; assumption].
    apply upload_select_kept.
    + intros msg. split; assumption.
    + intros Hacc. split; [|exact Htext]. now intros f' [= <-].
  - destruct u as [cf pg t al dl]. cbn in Hcur, Htext.
    unfold Upload.clickExtract. destruct cf; cbn; split; try assumption.
  - split; [discriminate|exact Htext].
  - split; [discriminate|exact Htext].
  - destruct u as [cf [fi fp uc oc rc lo fn fs et] t al dl].
    cbn in Hcur, Htext. unfold Upload.downloadText.
    destruct cf, et; cbn; split; assumption.
  - destruct u as [cf [fi fp uc oc rc lo fn fs et] t al dl].
    cbn in Hcur, Htext. unfold Upload.downloadExcel, Upload.downloadText.
    destruct cf, et; cbn; split; assumption.
  - destruct u as [cf [fi fp uc oc rc lo fn fs et] t al dl].
    cbn in Hcur, Htext. unfold Upload.timer, Upload.showResults.
    destruct t; [split; assumption|].
    destruct et, cf as [f|];
      cbn -[Upload.sampleText Upload.normalizeNewlines];
      (split; [assumption|]); try assumption.
    right. exists f, now. split; [now apply Hcur|reflexivity].
Qed.

(** X22.  In every state the uploader reaches, the current file is of
    type [application/pdf] and at most [50 * 1024 * 1024] bytes, and the
    text area holds what the page gave it or the sample text of such a
    file, as a text area gives it back (line breaks as LF). *)
Theorem uploader_keeps_accepted_file (p : Upload.Page) (u : Upload.App) :
  Page.reachable p u ->
  (forall f, Upload.currentFile u = Some f ->
     type f = lit "application/pdf" /\ size f <= 50 * 1024 * 1024) /\
  (Upload.extractedText (Upload.page u) = Upload.extractedText p \/
   exists f now,
     (type f = lit "application/pdf" /\ size f <= 50 * 1024 * 1024) /\
     Upload.extractedText (Upload.page u)
     = Some (Upload.normalizeNewlines (Upload.sampleText f now))).
Proof.
  induction 1 as [|u ev Hr IH].
  - split; [discriminate|now left].
  - now apply upload_handle_kept.
Qed.

(** ** The properties above at concrete inputs *)

Lemma valid_selection_starts_extraction_witness :
  pending (handleFileSelection Scenario.a_pdf (init Scenario.page))
  = pending (init Scenario.page) ++ [mkTask Scenario.a_pdf (tl steps)].
Proof.
  assert (Hv : validateFile (config (init Scenario.page)) Scenario.a_pdf
               = Valid) by (vm_compute; reflexivity).
  exact (proj1 (proj2 (valid_selection_starts_extraction
                         (init Scenario.page) Scenario.a_pdf Hv eq_refl))).
Defined.

Lemma extraction_takes_five_timers_witness :
  pending
    (run (map Timer [Scenario.now; Scenario.now; Scenario.now; Scenario.now;
                     Scenario.now])
         (processFile Scenario.a_pdf (init Scenario.page)))
  = [].
Proof.
  exact (proj1 (proj2 (proj2 (extraction_takes_five_timers
           (init Scenario.page) Scenario.a_pdf
           Scenario.now Scenario.now Scenario.now Scenario.now Scenario.now
           eq_refl eq_refl)))).
Defined.

Lemma stored_files_are_validated_witness :
  currentFile (state Scenario.processing) = Some Scenario.a_pdf /\
  type Scenario.a_pdf = lit "application/pdf" /\
  size Scenario.a_pdf <= 10 * 1024 * 1024.
Proof.
  assert (H : currentFile (state Scenario.processing) = Some Scenario.a_pdf)
    by (vm_compute; reflexivity).
  split; [exact H|].
  exact (proj1 (stored_files_are_validated Scenario.page Scenario.processing
                  reachable_processing) Scenario.a_pdf H).
Defined.

Lemma extractedText_is_generated_witness :
  extractedText (state Scenario.result) = [] \/
  exists f now,
    type f = lit "application/pdf" /\ size f <= 10 * 1024 * 1024 /\
    extractedText (state Scenario.result)
    = generateMockExtractedText (name f) now.
Proof.
  exact (extractedText_is_generated Scenario.page Scenario.result
           reachable_result).
Defined.

Lemma progress_shown_only_while_processing_witness :
  shown (progressContainer (elements Scenario.processing)) = true /\
  isProcessing (state Scenario.processing) = true.
Proof.
  assert (H : shown (progressContainer (elements Scenario.processing)) = true)
    by (vm_compute; reflexivity).
  split; [exact H|].
  exact (progress_shown_only_while_processing Scenario.page
           Scenario.processing reachable_processing H).
Defined.

Lemma preview_shows_stored_file_witness :
  shown (filePreview (elements Scenario.result))
  = present (currentFile (state Scenario.result)).
Proof.
  exact (proj1 (preview_shows_stored_file Scenario.page Scenario.result
                  reachable_result eq_refl)).
Defined.

Lemma highlight_follows_counter_witness :
  Drag.balanced (Drag.listen DragLeave (Drag.listen DragEnter Cases.zone)).
Proof.
  assert (H0 : Drag.balanced Cases.zone).
  { split; [cbn; lia|]. cbn. split; [discriminate|lia]. }
  assert (H1 : Drag.balanced (Drag.listen DragEnter Cases.zone)).
  { apply (highlight_follows_counter DragEnter Cases.zone H0). discriminate. }
  apply (highlight_follows_counter DragLeave _ H1).
  intros _. cbn. lia.
Defined.

Lemma no_download_without_click_witness :
  downloads (run [Change Scenario.a_pdf; Timer Scenario.now]
               (init Scenario.page))
  = downloads (init Scenario.page).
Proof.
  assert (H : Forall (fun ev => ev <> ClickDownload)
                [Change Scenario.a_pdf; Timer Scenario.now]).
  { repeat constructor; discriminate. }
  exact (proj1 (no_download_without_click _ (init Scenario.page) H)).
Defined.

Lemma formatFileSize_whole_units_witness :
  1 <= 10 < 1024 /\ 0 <= 2 <= 3 /\
  formatFileSize (10 * 1024 ^ 2)
  = digits 10 ++ lit " " ++ nth (Z.to_nat 2) sizes [].
Proof.
  split; [lia|]. split; [lia|].
  apply formatFileSize_whole_units; lia.
Defined.

Lemma formatFileSize_past_GB_witness :
  exists h, 100 <= h /\
    formatFileSize (3 * 1024 ^ 4) = hundredths h ++ lit " undefined".
Proof.
  apply formatFileSize_past_GB. cbn. lia.
Defined.

Lemma formatFileSize_never_carries_witness :
  formatFileSize 1048575 = lit "1024 " ++ nth (Z.to_nat 1) sizes [].
Proof.
  apply formatFileSize_never_carries; cbn; lia.
Defined.

Lemma copy_restores_label_witness :
  Clipboard.copyBtn
    (Clipboard.restore
       (Clipboard.settled true (Clipboard.copyToClipboard Cases.desk)))
  = Some (Clipboard.mkButton (lit "Copy Text") false).
Proof.
  assert (Ht : extractedText (state (Clipboard.inst Cases.desk)) <> [])
    by (vm_compute; discriminate).
  exact (proj1 (proj2 (proj2 (proj2
           (copy_restores_label Cases.desk
              (Clipboard.mkButton (lit "Copy Text") false)
              Ht eq_refl eq_refl eq_refl))))).
Defined.

Lemma second_copy_loses_label_witness :
  Clipboard.copyBtn
    (Clipboard.restore
       (Clipboard.restore
          (Clipboard.settled true
             (Clipboard.copyToClipboard
                (Clipboard.settled true
                   (Clipboard.copyToClipboard Cases.desk))))))
  = Some (Clipboard.mkButton (lit "Copied!") false).
Proof.
  assert (Ht : extractedText (state (Clipboard.inst Cases.desk)) <> [])
    by (vm_compute; discriminate).
  exact (proj1 (second_copy_loses_label Cases.desk
                  (Clipboard.mkButton (lit "Copy Text") false)
                  Ht eq_refl eq_refl eq_refl)).
Defined.

Lemma handleFileSelect_accepts_witness :
  Upload.currentFile (Upload.handleFileSelect Scenario.a_pdf
                        (Upload.init Scenario.upage))
  = Some Scenario.a_pdf /\
  Upload.currentFile (Upload.handleFileSelect Scenario.big_png
                        (Upload.init Scenario.upage))
  = Upload.currentFile (Upload.init Scenario.upage).
Proof.
  assert (Ha : Page.accepted Scenario.a_pdf).
  { split; [reflexivity|]. cbn. lia. }
  assert (Hn : ~ Page.accepted Scenario.big_png).
  { intros [Ht _]. vm_compute in Ht. discriminate. }
  split.
  - exact (proj1 (proj1 (handleFileSelect_accepts Scenario.a_pdf
                           (Upload.init Scenario.upage)) Ha)).
  - exact (proj1 (proj2 (handleFileSelect_accepts Scenario.big_png
                           (Upload.init Scenario.upage)) Hn)).
Defined.

Lemma extract_shows_text_of_current_file_witness :
  Upload.extractedText
    (Upload.page
       (Upload.timer Scenario.now
          (Upload.clickExtract (Scenario.uselected Scenario.a_pdf))))
  = Upload.assign
      (Upload.extractedText (Upload.page (Scenario.uselected Scenario.a_pdf)))
      (Upload.normalizeNewlines
         (Upload.sampleText Scenario.a_pdf Scenario.now)).
Proof.
  assert (Hf : Upload.currentFile (Scenario.uselected Scenario.a_pdf)
               = Some Scenario.a_pdf) by (vm_compute; reflexivity).
  assert (Ht : Upload.timers (Scenario.uselected Scenario.a_pdf) = 0%nat)
    by (vm_compute; reflexivity).
  exact (proj2 (proj2 (proj2 (proj2 (proj2 (proj2 (proj2 (proj2
           (extract_shows_text_of_current_file
              (Scenario.uselected Scenario.a_pdf) Scenario.a_pdf
              Scenario.now Hf Ht))))))))).
Defined.

Lemma timer_after_reset_shows_old_text_witness :
  Upload.currentFile
    (Upload.timer Scenario.now (Upload.reset Cases.uextracting)) = None /\
  Upload.resultsCard
    (Upload.page (Upload.timer Scenario.now (Upload.reset Cases.uextracting)))
  = Upload.assign (Upload.resultsCard (Upload.page Cases.uextracting))
      Upload.DisplayBlock.
Proof.
  assert (Ht : Upload.timers Cases.uextracting = 1%nat)
    by (vm_compute; reflexivity).
  pose proof (timer_after_reset_shows_old_text Cases.uextracting 0
                Scenario.now Ht) as H.
  split; [exact (proj1 H)|exact (proj1 (proj2 (proj2 H)))].
Defined.

Lemma uploader_keeps_accepted_file_witness :
  Upload.currentFile (Scenario.uselected Scenario.a_pdf)
  = Some Scenario.a_pdf /\
  type Scenario.a_pdf = lit "application/pdf" /\
  size Scenario.a_pdf <= 50 * 1024 * 1024.
Proof.
  assert (H : Upload.currentFile (Scenario.uselected Scenario.a_pdf)
              = Some Scenario.a_pdf) by (vm_compute; reflexivity).
  split; [exact H|].
  exact (proj1 (uploader_keeps_accepted_file Scenario.upage
                  (Scenario.uselected Scenario.a_pdf)
                  (Page.reach_step Scenario.upage _
                     (Page.Change Scenario.a_pdf)
                     (Page.reach_init Scenario.upage)))
           Scenario.a_pdf H).
Defined.

Lemma extraction_always_completes_witness :
  exists t, pending Scenario.processing = [t] /\
    (List.length (remaining t) <= 4)%nat.
Proof.
  destruct (extraction_always_completes Scenario.page Scenario.processing
              reachable_processing eq_refl) as (t & Hp & Hle & _).
  exists t. split; [exact Hp|exact Hle].
Defined.
